(** * gagiteck-python: the tool and agent layer, embedded in Rocq

    A shallow embedding of [gagiteck/exceptions.py], [gagiteck/tool.py],
    [gagiteck/agent.py] and of [Client.__init__] from [gagiteck/client.py],
    followed by the properties of schema derivation, tool invocation,
    conversation memory and credential checking.

    Conventions of the embedding:
    - a Python [str] is a [string] whose characters are code points below 256;
    - a Python [dict] is an association list in insertion order; assigning to
      a key that is already present keeps the key's position;
    - a mutable object ([Agent]) is a record, and a method that mutates it
      returns the record after the call;
    - a call that may raise returns an [outcome]. *)

From Stdlib Require Import String Ascii List ZArith Bool Lia.
From Stdlib Require Import Floats.PrimFloat.
From Stdlib Require Import DecimalString.
Import ListNotations.
Open Scope string_scope.

Set Implicit Arguments.
Set Warnings "-register-all".

(** ** Python values and the built-in operations the SDK uses *)

Module py.

(** The values that travel in schemas, request payloads and keyword
    arguments. *)
Inductive value : Type :=
| None_
| Bool (b : bool)
| Int (z : Z)
| Float (f : float)
| Str (s : string)
| List (items : list value)
| Dict (items : list (string * value)).

(** [dict] with [str] keys, in insertion order. *)
Definition dict (V : Type) : Type := list (string * V).

(** [d.get(k)] *)
Fixpoint get {V : Type} (k : string) (d : dict V) : option V :=
  match d with
  | [] => None
  | (k', v) :: rest => if String.eqb k' k then Some v else get k rest
  end.

(** [d.get(k, default)] *)
Definition get_default {V : Type} (k : string) (default : V) (d : dict V) : V :=
  match get k d with
  | Some v => v
  | None => default
  end.

(** [d[k] = v]: replaces the value in place when [k] is present, appends a
    new entry otherwise. *)
Fixpoint set {V : Type} (k : string) (v : V) (d : dict V) : dict V :=
  match d with
  | [] => [(k, v)]
  | (k', v') :: rest =>
      if String.eqb k' k then (k', v) :: rest else (k', v') :: set k v rest
  end.

(** [list(d)]: the keys in insertion order. *)
Definition keys {V : Type} (d : dict V) : list string := map fst d.

(** [c.isspace()] for a code point below 256: TAB..CR, FS..US, space,
    NEL and NBSP. *)
Definition isspace (c : ascii) : bool :=
  let n := nat_of_ascii c in
  (((9 <=? n) && (n <=? 13)) || ((28 <=? n) && (n <=? 32))
   || (n =? 133) || (n =? 160))%nat.

(** Dropping the leading characters that satisfy [p]. *)
Fixpoint lstrip_with (p : ascii -> bool) (s : string) : string :=
  match s with
  | EmptyString => EmptyString
  | String c rest => if p c then lstrip_with p rest else s
  end.

(** Dropping the trailing characters that satisfy [p]. *)
Fixpoint rstrip_with (p : ascii -> bool) (s : string) : string :=
  match s with
  | EmptyString => EmptyString
  | String c rest =>
      match rstrip_with p rest with
      | EmptyString => if p c then EmptyString else String c EmptyString
      | kept => String c kept
      end
  end.

(** [s.strip()] *)
Definition strip (s : string) : string :=
  rstrip_with isspace (lstrip_with isspace s).

(** [s.rstrip(chars)] *)
Definition rstrip (chars : string) (s : string) : string :=
  rstrip_with (fun c => existsb (Ascii.eqb c) (list_ascii_of_string chars)) s.

(** [s.startswith(p)] *)
Definition startswith (p s : string) : bool := String.prefix p s.

(** Truth value of a [str]: only the empty string is false. *)
Definition str_truthy (s : string) : bool :=
  match s with
  | EmptyString => false
  | String _ _ => true
  end.

(** Truth value of an [Optional[str]]: [None] and the empty string are
    false. *)
Definition opt_str_truthy (s : option string) : bool :=
  match s with
  | None => false
  | Some s => str_truthy s
  end.

(** [a or b] where [a] is an [Optional[str]] and [b] a [str]. *)
Definition or_str (a : option string) (b : string) : string :=
  match a with
  | Some s => if str_truthy s then s else b
  | None => b
  end.

End py.

(** ** exceptions.py *)

Module exceptions.

(** What a [raise] carries.  The SDK's classes keep the attributes their
    [__init__] stores; an exception of any other class (built-in or the
    user's own) is identified by its class name and its message.
    [APIError] and [RateLimitError] are raised by [Client._request] only,
    which is outside the embedding. *)
Inductive exn : Type :=
| Builtin (cls : string) (msg : string)
| GagiteckError (message : string)
| AuthenticationError (message : string)
| ValidationError (message : string)
| AgentError (message : string)
| ToolError (tool_name : string) (message : string).

(** [ValueError(msg)] *)
Definition ValueError (msg : string) : exn := Builtin "ValueError" msg.

(** [ToolError.__init__(tool_name, message)]: keeps [tool_name] and hands
    the formatted text to [GagiteckError.__init__], which stores it as
    [message]. *)
Definition ToolError__init__ (tool_name message : string) : exn :=
  ToolError tool_name ("Tool '" ++ tool_name ++ "' failed: " ++ message).

(** [type(e).__name__] *)
Definition class_name (e : exn) : string :=
  match e with
  | Builtin cls _ => cls
  | GagiteckError _ => "GagiteckError"
  | AuthenticationError _ => "AuthenticationError"
  | ValidationError _ => "ValidationError"
  | AgentError _ => "AgentError"
  | ToolError _ _ => "ToolError"
  end.

(** [str(e)] *)
Definition str (e : exn) : string :=
  match e with
  | Builtin _ msg => msg
  | GagiteckError m | AuthenticationError m | ValidationError m
  | AgentError m | ToolError _ m => m
  end.

(** The result of a call that may raise. *)
Inductive outcome (A : Type) : Type :=
| Return (a : A)
| Raise (e : exn).
Arguments Raise {A} e.

End exceptions.

(** ** Callables as [inspect] and [typing] see them *)

Module inspect.
Import exceptions.

(** A type object used as an annotation: the six classes that [tool.py]
    knows, any other class by its qualified name, and a parameterised
    generic such as [list[int]]. *)
Inductive pytype : Type :=
| T_str
| T_int
| T_float
| T_bool
| T_list
| T_dict
| OtherClass (qualname : string)
| GenericAlias (origin : pytype) (args : list pytype).

(** [a == b] on type objects; it is also what a [dict] keyed by types
    compares with. *)
Fixpoint type_eqb (a b : pytype) : bool :=
  match a, b with
  | T_str, T_str | T_int, T_int | T_float, T_float
  | T_bool, T_bool | T_list, T_list | T_dict, T_dict => true
  | OtherClass x, OtherClass y => String.eqb x y
  | GenericAlias o1 a1, GenericAlias o2 a2 =>
      type_eqb o1 o2
      && (fix args_eqb (l1 l2 : list pytype) : bool :=
            match l1, l2 with
            | [], [] => true
            | x :: xs, y :: ys => type_eqb x y && args_eqb xs ys
            | _, _ => false
            end) a1 a2
  | _, _ => false
  end.

(** An [inspect.Parameter] object: [default = None] stands for
    [inspect.Parameter.empty]; a default that is Python's [None] is
    [Some py.None_]. *)
Record Param : Type := {
  name : string;
  default : option py.value
}.

(** A callable that [inspect] and [typing] can introspect, by the
    attributes and the behaviour the SDK reads:
    [__annotations__] is [None] when the object has no such attribute and
    otherwise holds the annotations as [typing.get_type_hints] resolves
    them (return annotation included, under the key [return]);
    [parameters] is [inspect.signature(func).parameters] in declaration
    order; [call] is [func( **kwargs)]. *)
Record Callable : Type := {
  __name__ : string;
  __doc__ : option string;
  __annotations__ : option (py.dict pytype);
  parameters : list Param;
  call : py.dict py.value -> outcome py.value
}.

(** [hasattr(func, "__annotations__")] *)
Definition hasattr_annotations (func : Callable) : bool :=
  match __annotations__ func with
  | Some _ => true
  | None => false
  end.

(** [typing.get_type_hints(func)] *)
Definition get_type_hints (func : Callable) : py.dict pytype :=
  match __annotations__ func with
  | Some hints => hints
  | None => []
  end.

(** [inspect.signature(func).parameters.items()] *)
Definition signature (func : Callable) : list Param := parameters func.

End inspect.

(** ** tool.py *)

Module tool.
Import exceptions.
Import inspect.

(** The [type_map] literal of [_python_type_to_json]. *)
Definition type_map : list (pytype * string) :=
  [ (T_str, "string"); (T_int, "integer"); (T_float, "number");
    (T_bool, "boolean"); (T_list, "array"); (T_dict, "object") ].

(** [m.get(t)] on a [dict] keyed by type objects. *)
Fixpoint type_map_get (t : pytype) (m : list (pytype * string)) : option string :=
  match m with
  | [] => None
  | (k, v) :: rest => if type_eqb k t then Some v else type_map_get t rest
  end.

(** [_python_type_to_json(python_type)] *)
Definition _python_type_to_json (python_type : pytype) : string :=
  match type_map_get python_type type_map with
  | Some json_type => json_type
  | None => "string"
  end.

(** The [Tool] dataclass. *)
Record Tool : Type := {
  name : string;
  description : string;
  parameters : py.dict py.value;
  function : option Callable
}.

(** [Tool(name, description, parameters=..., function=...)]: an omitted
    [parameters] is a fresh empty [dict], an omitted [function] is [None]. *)
Definition Tool__init__ (name description : string)
    (parameters : option (py.dict py.value)) (function : option Callable) : Tool :=
  {| name := name;
     description := description;
     parameters := match parameters with Some d => d | None => [] end;
     function := function |}.

(** [Tool.__call__(self, **kwargs)] *)
Definition __call__ (self : Tool) (kwargs : py.dict py.value) : outcome py.value :=
  match function self with
  | None => Raise (ValueError ("Tool '" ++ name self ++ "' has no function defined"))
  | Some f => call f kwargs
  end.

(** [Tool.to_dict(self)] *)
Definition to_dict (self : Tool) : py.value :=
  py.Dict
    [ ("type", py.Str "function");
      ("function",
        py.Dict
          [ ("name", py.Str (name self));
            ("description", py.Str (description self));
            ("parameters", py.Dict (parameters self)) ]) ].

(** One iteration of the [for param_name, param in sig.parameters.items()]
    loop of [from_function], on the pair of locals [(properties, required)]. *)
Definition from_function_step (hints : py.dict pytype)
    (acc : py.dict py.value * list string) (param : Param)
    : py.dict py.value * list string :=
  let '(properties, required) := acc in
  let param_name := inspect.name param in
  if String.eqb param_name "self" then acc
  else
    let param_type := py.get_default param_name T_str hints in
    let json_type := _python_type_to_json param_type in
    let properties :=
      py.set param_name
        (py.Dict [ ("type", py.Str json_type);
                   ("description", py.Str ("Parameter: " ++ param_name)) ])
        properties in
    let required :=
      match default param with
      | None => (required ++ [param_name])%list
      | Some _ => required
      end in
    (properties, required).

(** The locals [(properties, required)] of [from_function] when its loop
    ends. *)
Definition from_function_loop (func : Callable) : py.dict py.value * list string :=
  let hints := if hasattr_annotations func then get_type_hints func else [] in
  let sig := signature func in
  fold_left (from_function_step hints) sig ([], []).

(** The local [parameters] of [from_function]: the schema with its
    [required] key set only when the list is not empty. *)
Definition from_function_parameters (func : Callable) : py.dict py.value :=
  let '(properties, required) := from_function_loop func in
  let parameters :=
    [ ("type", py.Str "object"); ("properties", py.Dict properties) ] in
  match required with
  | [] => parameters
  | _ :: _ => py.set "required" (py.List (map py.Str required)) parameters
  end.

(** [Tool.from_function(func)] *)
Definition from_function (func : Callable) : Tool :=
  let name := __name__ func in
  let description := py.or_str (__doc__ func) ("Execute " ++ name) in
  let parameters := from_function_parameters func in
  {| name := name;
     description := py.strip description;
     parameters := parameters;
     function := Some func |}.

(** The [tool] decorator. *)
Definition tool (func : Callable) : Tool := from_function func.

End tool.

(** ** agent.py *)

Module agent.
Import inspect.

(** An element of the [tools] argument: [Tool | Callable]. *)
Inductive tool_entry : Type :=
| RawFunction (f : Callable)
| BoundTool (t : tool.Tool).

(** The [AgentResponse] dataclass. *)
Record AgentResponse : Type := {
  content : string;
  response_model : string;
  tool_calls : list (py.dict py.value);
  usage : option (py.dict py.value)
}.

(** [AgentResponse.text] *)
Definition text (self : AgentResponse) : string := content self.

(** The [Agent] dataclass after [__post_init__]: [tools] holds [Tool]
    objects only. *)
Record Agent : Type := {
  name : string;
  model : string;
  system_prompt : option string;
  tools : list tool.Tool;
  memory_enabled : bool;
  max_tokens : Z;
  temperature : float;
  _conversation_history : list py.value;
  _client : py.value
}.

(** The field defaults of the dataclass. *)
Definition default_model : string := "claude-3-sonnet".
Definition default_memory_enabled : bool := false.
Definition default_max_tokens : Z := 4096.
Definition default_temperature : float := 0x1.6666666666666p-1%float.

(** [Agent.__post_init__]: the value it assigns to [self.tools]. *)
Definition __post_init__ (tools : list tool_entry) : list tool.Tool :=
  fold_left
    (fun processed_tools t =>
       match t with
       | RawFunction f => (processed_tools ++ [tool.from_function f])%list
       | BoundTool t => (processed_tools ++ [t])%list
       end)
    tools [].

(** [Agent(name, model, system_prompt, tools, memory_enabled, max_tokens,
    temperature, _conversation_history, _client)]: the generated [__init__]
    stores the arguments, then runs [__post_init__].  The two private
    fields are arguments like the others; left out ([None] here),
    [_conversation_history] is a fresh empty list and [_client] is Python's
    [None]. *)
Definition Agent__init__ (name model : string) (system_prompt : option string)
    (tools : list tool_entry) (memory_enabled : bool) (max_tokens : Z)
    (temperature : float) (_conversation_history : option (list py.value))
    (_client : option py.value) : Agent :=
  {| name := name;
     model := model;
     system_prompt := system_prompt;
     tools := __post_init__ tools;
     memory_enabled := memory_enabled;
     max_tokens := max_tokens;
     temperature := temperature;
     _conversation_history :=
       match _conversation_history with Some history => history | None => [] end;
     _client := match _client with Some c => c | None => py.None_ end |}.

(** [self._conversation_history.append(entry)] *)
Definition history_append (self : Agent) (entry : py.value) : Agent :=
  {| name := name self;
     model := model self;
     system_prompt := system_prompt self;
     tools := tools self;
     memory_enabled := memory_enabled self;
     max_tokens := max_tokens self;
     temperature := temperature self;
     _conversation_history := (_conversation_history self ++ [entry])%list;
     _client := _client self |}.

(** A history entry [{"role": role, "content": content}]. *)
Definition message_entry (role content : string) : py.value :=
  py.Dict [ ("role", py.Str role); ("content", py.Str content) ].

(** What one call of [run] computes: the local [request], the local
    [response] and the agent when the call returns. *)
Record run_locals : Type := {
  request : py.dict py.value;
  response : AgentResponse;
  self_after : Agent
}.

(** The body of [Agent.run(self, message, context)], statement by
    statement.  [context] is not read.  With memory enabled
    [request["messages"]] is the history list itself; it is recorded here
    as it stands when the request is built. *)
Definition run_body (self : Agent) (message : string)
    (context : option (py.dict py.value)) : run_locals :=
  (* Add to conversation history *)
  let self := history_append self (message_entry "user" message) in
  (* Build the request *)
  let request :=
    [ ("model", py.Str (model self));
      ("messages",
        if memory_enabled self
        then py.List (_conversation_history self)
        else py.List [message_entry "user" message]);
      ("max_tokens", py.Int (max_tokens self));
      ("temperature", py.Float (temperature self)) ] in
  let request :=
    if py.opt_str_truthy (system_prompt self)
    then py.set "system"
           (py.Str (match system_prompt self with Some s => s | None => EmptyString end))
           request
    else request in
  let request :=
    match tools self with
    | [] => request
    | _ :: _ => py.set "tools" (py.List (map tool.to_dict (tools self))) request
    end in
  let response :=
    {| content := "[Agent '" ++ name self ++ "' would process: " ++ message ++ "]";
       response_model := model self;
       tool_calls := [];
       usage := None |} in
  let self :=
    if memory_enabled self
    then history_append self (message_entry "assistant" (content response))
    else self in
  {| request := request; response := response; self_after := self |}.

(** [Agent.run]: the returned response, with the agent after the call. *)
Definition run (self : Agent) (message : string)
    (context : option (py.dict py.value)) : AgentResponse * Agent :=
  let r := run_body self message context in
  (response r, self_after r).

(** [Agent.clear_memory] *)
Definition clear_memory (self : Agent) : Agent :=
  {| name := name self;
     model := model self;
     system_prompt := system_prompt self;
     tools := tools self;
     memory_enabled := memory_enabled self;
     max_tokens := max_tokens self;
     temperature := temperature self;
     _conversation_history := [];
     _client := _client self |}.

(** A sequence of calls [self.run(message, context)], in order: the
    agent after the last one. *)
Fixpoint run_all (self : Agent) (calls : list (string * option (py.dict py.value)))
    : Agent :=
  match calls with
  | [] => self
  | (message, context) :: rest => run_all (snd (run self message context)) rest
  end.

End agent.

(** ** client.py: [Client.__init__] *)

Module client.
Import exceptions.

(** What the constructor does to the outside world: the only such step is
    building the [httpx.Client] that later carries every request. *)
Inductive effect : Type :=
| HttpxClient (base_url : string) (headers : py.dict string) (timeout : Z).

(** The attributes [__init__] sets.  The three resource objects
    ([agents], [workflows], [executions]) hold nothing but a reference back
    to the client and are left out. *)
Record Client : Type := {
  api_key : string;
  base_url : string;
  timeout : Z;
  debug : bool;
  _http_client : effect
}.

Definition DEFAULT_BASE_URL : string := "https://api.gagiteck.com/v1".

(** [Client.__init__(self, api_key, base_url, timeout, debug)], threading
    the log of outside effects. *)
Definition __init__ (world : list effect) (api_key base_url : option string)
    (timeout : Z) (debug : bool) : outcome Client * list effect :=
  if negb (py.opt_str_truthy api_key)
  then (Raise (AuthenticationError "API key is required"), world)
  else
    let api_key := match api_key with Some k => k | None => EmptyString end in
    if negb (py.startswith "ggt_" api_key)
    then (Raise (AuthenticationError
                   "Invalid API key format. Key should start with 'ggt_'"), world)
    else
      let base_url := py.rstrip "/" (py.or_str base_url DEFAULT_BASE_URL) in
      let http :=
        HttpxClient base_url
          [ ("Authorization", "Bearer " ++ api_key);
            ("Content-Type", "application/json");
            ("User-Agent", "gagiteck-python/0.1.0") ]
          timeout in
      (Return {| api_key := api_key;
                 base_url := base_url;
                 timeout := timeout;
                 debug := debug;
                 _http_client := http |},
       (world ++ [http])%list).

End client.

(** ** client.py: requests and the resource wrappers *)

Module httpx.
Import exceptions.

(** The arguments of [httpx.Client.request(method=, url=, json=, params=)]. *)
Record Request : Type := {
  method : string;
  url : string;
  json : option py.value;
  params : option (py.dict py.value)
}.

(** An [httpx.Response] as [Client._request] reads it: [status_code],
    [text], whether [raise_for_status()] raises [HTTPStatusError]
    ([is_error]), and what [json()] gives. *)
Record Response : Type := {
  status_code : Z;
  text : string;
  is_error : bool;
  json_body : outcome py.value
}.

(** What [httpx.Client.request] does with a request: it returns a
    response, raises an [httpx.RequestError] whose [str] is [message], or
    raises something else. *)
Inductive sent : Type :=
| Responded (r : Response)
| RequestError (message : string)
| Crashed (e : exn).

(** The remote side, as seen through the [httpx.Client]. *)
Definition transport : Type := Request -> sent.

End httpx.

Module http.
Import exceptions.

(** What a request through the client may raise: one of the exceptions of
    [exceptions.exn], or an [APIError] with the attributes its [__init__]
    stores. *)
Inductive error : Type :=
| Core (e : exn)
| APIError (code : Z) (message : string).

(** [str(n)] for an [int]. *)
Definition str_of_int (n : Z) : string := NilEmpty.string_of_int (Z.to_int n).

(** [APIError.__init__(code, message)]: keeps [code] and hands
    [f"API Error {code}: {message}"] to [GagiteckError.__init__]. *)
Definition APIError__init__ (code : Z) (message : string) : error :=
  APIError code ("API Error " ++ str_of_int code ++ ": " ++ message).

(** The result of a call through the client. *)
Inductive result (A : Type) : Type :=
| Ok (a : A)
| Fail (e : error).
Arguments Fail {A} e.

(** A method that talks to the remote side: it is given the transport and
    the requests sent so far, and returns its result with the requests
    sent when it ends. *)
Definition io (A : Type) : Type :=
  httpx.transport -> list httpx.Request -> result A * list httpx.Request.

(** Truth value of an [Optional[dict]] or [Optional[list]]: [None] and the
    empty container are false. *)
Definition opt_truthy {A : Type} (x : option (list A)) : bool :=
  match x with
  | Some (_ :: _) => true
  | Some [] | None => false
  end.

(** [{ **base, **kwargs}]: the keys of [kwargs] assigned in order. *)
Definition dict_update (base kwargs : py.dict py.value) : py.dict py.value :=
  fold_left (fun d kv => py.set (fst kv) (snd kv) d) kwargs base.

(** [Client._request(self, method, path, json, params)] *)
Definition _request (method path : string) (json : option py.value)
    (params : option (py.dict py.value)) : io py.value :=
  fun send log =>
    let request :=
      {| httpx.method := method; httpx.url := path;
         httpx.json := json; httpx.params := params |} in
    let log := (log ++ [request])%list in
    match send request with
    | httpx.Responded response =>
        if httpx.is_error response
        then
          if (httpx.status_code response =? 401)%Z
          then (Fail (Core (AuthenticationError "Invalid or expired API key")), log)
          else (Fail (APIError__init__ (httpx.status_code response)
                                       (httpx.text response)), log)
        else
          match httpx.json_body response with
          | Return body => (Ok body, log)
          | Raise e => (Fail (Core e), log)
          end
    | httpx.RequestError message => (Fail (APIError__init__ 0 message), log)
    | httpx.Crashed e => (Fail (Core e), log)
    end.

End http.

Module AgentsAPI.
Import http.

(** [AgentsAPI.list(self, limit=20, offset=0)] *)
Definition list (limit offset : Z) : io py.value :=
  _request "GET" "/agents" None
    (Some [ ("limit", py.Int limit); ("offset", py.Int offset) ]).

(** [AgentsAPI.get(self, agent_id)] *)
Definition get (agent_id : string) : io py.value :=
  _request "GET" ("/agents/" ++ agent_id) None None.

(** [AgentsAPI.create(self, name, model, system_prompt, tools, **kwargs)] *)
Definition create (name model : string) (system_prompt : option string)
    (tools : option (Datatypes.list py.value)) (kwargs : py.dict py.value)
    : io py.value :=
  let data :=
    dict_update
      [ ("name", py.Str name);
        ("model", py.Str model);
        ("system_prompt",
          match system_prompt with Some s => py.Str s | None => py.None_ end);
        ("tools",
          py.List (if opt_truthy tools
                   then match tools with Some l => l | None => [] end
                   else [])) ]
      kwargs in
  _request "POST" "/agents" (Some (py.Dict data)) None.

(** [AgentsAPI.update(self, agent_id, **kwargs)] *)
Definition update (agent_id : string) (kwargs : py.dict py.value) : io py.value :=
  _request "PATCH" ("/agents/" ++ agent_id) (Some (py.Dict kwargs)) None.

(** [AgentsAPI.delete(self, agent_id)]: the body of the answer is dropped. *)
Definition delete (agent_id : string) : io unit :=
  fun send log =>
    match _request "DELETE" ("/agents/" ++ agent_id) None None send log with
    | (Ok _, log) => (Ok tt, log)
    | (Fail e, log) => (Fail e, log)
    end.

(** [AgentsAPI.run(self, agent_id, message, context)] *)
Definition run (agent_id message : string) (context : option (py.dict py.value))
    : io py.value :=
  let data := [ ("message", py.Str message) ] in
  let data :=
    if opt_truthy context
    then py.set "context"
           (py.Dict (match context with Some c => c | None => [] end)) data
    else data in
  _request "POST" ("/agents/" ++ agent_id ++ "/run") (Some (py.Dict data)) None.

End AgentsAPI.

Module WorkflowsAPI.
Import http.

(** [WorkflowsAPI.list(self, limit=20, offset=0)] *)
Definition list (limit offset : Z) : io py.value :=
  _request "GET" "/workflows" None
    (Some [ ("limit", py.Int limit); ("offset", py.Int offset) ]).

(** [WorkflowsAPI.get(self, workflow_id)] *)
Definition get (workflow_id : string) : io py.value :=
  _request "GET" ("/workflows/" ++ workflow_id) None None.

(** [WorkflowsAPI.trigger(self, workflow_id, inputs)] *)
Definition trigger (workflow_id : string) (inputs : option (py.dict py.value))
    : io py.value :=
  _request "POST" ("/workflows/" ++ workflow_id ++ "/trigger")
    (Some (py.Dict
             [ ("inputs",
                 py.Dict (if opt_truthy inputs
                          then match inputs with Some d => d | None => [] end
                          else [])) ]))
    None.

End WorkflowsAPI.

Module ExecutionsAPI.
Import http.

(** [ExecutionsAPI.get(self, execution_id)] *)
Definition get (execution_id : string) : io py.value :=
  _request "GET" ("/executions/" ++ execution_id) None None.

(** [ExecutionsAPI.list(self, limit=20, offset=0)] *)
Definition list (limit offset : Z) : io py.value :=
  _request "GET" "/executions" None
    (Some [ ("limit", py.Int limit); ("offset", py.Int offset) ]).

End ExecutionsAPI.

(** ** Vocabulary of the properties *)

Module spec.
Import inspect.

(** The implicit receiver, as [from_function] recognises it. *)
Definition is_receiver (p : Param) : bool := String.eqb (inspect.name p) "self".

(** The parameters that schema derivation describes: the declared ones, in
    declaration order, without the receiver. *)
Definition declared (ps : list Param) : list Param :=
  filter (fun p => negb (is_receiver p)) ps.

(** A parameter without a default value. *)
Definition lacks_default (p : Param) : bool :=
  match default p with
  | None => true
  | Some _ => false
  end.

(** The names of the described parameters that have no default value, in
    declaration order. *)
Definition required_names (ps : list Param) : list string :=
  map inspect.name (filter lacks_default (declared ps)).

(** The annotation of the parameter called [n], if it has one. *)
Definition annotation_of (func : Callable) (n : string) : option pytype :=
  match __annotations__ func with
  | Some hints => py.get n hints
  | None => None
  end.

(** The fixed table of section 4.1: [string -> string], [integer ->
    integer], [float -> number], [boolean -> boolean], [list -> array],
    [mapping -> object]; anything else, or no annotation, is [string]. *)
Definition kind_of (annotation : option pytype) : string :=
  match annotation with
  | Some T_str => "string"
  | Some T_int => "integer"
  | Some T_float => "number"
  | Some T_bool => "boolean"
  | Some T_list => "array"
  | Some T_dict => "object"
  | Some (OtherClass _) | Some (GenericAlias _ _) | None => "string"
  end.

(** A ParameterSchema on the wire: [{type: kind, description: text}]. *)
Definition parameter_schema (kind text : string) : py.value :=
  py.Dict [ ("type", py.Str kind); ("description", py.Str text) ].

(** The entry of [properties] for the parameter called [n]: its kind by
    the table, and the synthesized description. *)
Definition property_entry (annotation : option pytype) (n : string) : py.value :=
  parameter_schema (kind_of annotation) ("Parameter: " ++ n).

(** Schema derivation in the words of section 4.1: one ParameterSchema per
    described parameter in declaration order, the names without default as
    [required], and [required] left out when it is empty. *)
Definition derive_schema (func : Callable) : py.dict py.value :=
  let described := declared (signature func) in
  let properties :=
    map (fun p =>
           (inspect.name p,
            property_entry (annotation_of func (inspect.name p)) (inspect.name p)))
        described in
  let required := map inspect.name (filter lacks_default described) in
  ([ ("type", py.Str "object"); ("properties", py.Dict properties) ]
   ++ match required with
      | [] => []
      | _ :: _ => [ ("required", py.List (map py.Str required)) ]
      end)%list.

(** The placeholder text [run] answers with. *)
Definition reply (agent_name message : string) : string :=
  "[Agent '" ++ agent_name ++ "' would process: " ++ message ++ "]".

(** The two history entries of one remembered call: the user's message,
    then the assistant's reply. *)
Definition exchange (agent_name message : string) : list py.value :=
  [ agent.message_entry "user" message;
    agent.message_entry "assistant" (reply agent_name message) ].

(** The messages of a sequence of calls. *)
Definition messages_of (calls : list (string * option (py.dict py.value)))
    : list string :=
  map fst calls.

(** A type object that is none of the six keys of the table. *)
Definition outside_table (t : pytype) : Prop :=
  t <> T_str /\ t <> T_int /\ t <> T_float /\ t <> T_bool /\ t <> T_list /\ t <> T_dict.

End spec.

(** ** Sample callables and tools *)

Module examples.
Import exceptions.
Import inspect.

(** [def greet(name: str) -> str] with the docstring [Greets a person.] *)
Definition greet : Callable :=
  {| __name__ := "greet";
     __doc__ := Some "Greets a person.";
     __annotations__ := Some [ ("name", T_str); ("return", T_str) ];
     parameters := [ {| name := "name"; default := None |} ];
     call := fun kwargs =>
       match py.get "name" kwargs with
       | Some (py.Str who) => Return (py.Str ("Hello, " ++ who))
       | _ => Raise (Builtin "TypeError" "greet() missing argument: 'name'")
       end |}.

(** [def scale(a: str, b: int = 0)], no docstring. *)
Definition scale : Callable :=
  {| __name__ := "scale";
     __doc__ := None;
     __annotations__ := Some [ ("a", T_str); ("b", T_int) ];
     parameters := [ {| name := "a"; default := None |};
                     {| name := "b"; default := Some (py.Int 0) |} ];
     call := fun _ => Return py.None_ |}.

(** [def ping(): ...] *)
Definition ping : Callable :=
  {| __name__ := "ping";
     __doc__ := Some "  Ping the service.
  ";
     __annotations__ := Some [];
     parameters := [];
     call := fun _ => Return (py.Str "pong") |}.

(** [def page(limit: int = 20, cursor=None)] *)
Definition page : Callable :=
  {| __name__ := "page";
     __doc__ := None;
     __annotations__ := Some [ ("limit", T_int) ];
     parameters := [ {| name := "limit"; default := Some (py.Int 20) |};
                     {| name := "cursor"; default := Some py.None_ |} ];
     call := fun _ => Return (py.List []) |}.

(** [def store(key, blob: bytes, tags: list[str])] *)
Definition store : Callable :=
  {| __name__ := "store";
     __doc__ := None;
     __annotations__ :=
       Some [ ("blob", OtherClass "bytes"); ("tags", GenericAlias T_list [T_str]) ];
     parameters := [ {| name := "key"; default := None |};
                     {| name := "blob"; default := None |};
                     {| name := "tags"; default := None |} ];
     call := fun _ => Return py.None_ |}.

(** [def divide(): return 1 / 0] *)
Definition divide : Callable :=
  {| __name__ := "divide";
     __doc__ := None;
     __annotations__ := Some [];
     parameters := [];
     call := fun _ => Raise (Builtin "ZeroDivisionError" "division by zero") |}.

(** [def impostor(): raise ValueError("Tool 'remote' has no function defined")] *)
Definition impostor : Callable :=
  {| __name__ := "impostor";
     __doc__ := None;
     __annotations__ := Some [];
     parameters := [];
     call := fun _ => Raise (ValueError "Tool 'remote' has no function defined") |}.

(** [Tool(name="remote", description="A remote descriptor")] *)
Definition remote : tool.Tool :=
  tool.Tool__init__ "remote" "A remote descriptor" None None.

(** [Tool(name="remote", description="A remote descriptor", function=impostor)] *)
Definition remote_bound : tool.Tool :=
  tool.Tool__init__ "remote" "A remote descriptor" None (Some impostor).

(** [Agent(name="helper")] *)
Definition helper : agent.Agent :=
  agent.Agent__init__ "helper" agent.default_model None []
    agent.default_memory_enabled agent.default_max_tokens agent.default_temperature
    None None.

(** [Agent(name="helper", memory_enabled=True)] *)
Definition helper_with_memory : agent.Agent :=
  agent.Agent__init__ "helper" agent.default_model None []
    true agent.default_max_tokens agent.default_temperature None None.

End examples.

(** ** Further vocabulary: strings, tool lists, agents, requests *)

Module more.
Import inspect.

(** The six JSON Schema kinds a derived ParameterSchema can have. *)
Definition kinds : list string :=
  [ "string"; "integer"; "number"; "boolean"; "array"; "object" ].

(** The first and the last character of a string. *)
Definition first_char (s : string) : option ascii :=
  match s with
  | EmptyString => None
  | String c _ => Some c
  end.

Fixpoint last_char (s : string) : option ascii :=
  match s with
  | EmptyString => None
  | String c EmptyString => Some c
  | String _ rest => last_char rest
  end.

(** Whether a character, if there is one, is white space. *)
Definition is_space_char (c : option ascii) : bool :=
  match c with
  | Some c => py.isspace c
  | None => false
  end.

(** A string made of white space only. *)
Fixpoint all_space (s : string) : bool :=
  match s with
  | EmptyString => true
  | String c rest => py.isspace c && all_space rest
  end.

(** The [Tool] an element of [tools] stands for. *)
Definition as_tool (entry : agent.tool_entry) : tool.Tool :=
  match entry with
  | agent.RawFunction f => tool.from_function f
  | agent.BoundTool t => t
  end.

(** The element with a raw callable wrapped by hand:
    [Tool.from_function(f)] in place of [f]. *)
Definition wrapped (entry : agent.tool_entry) : agent.tool_entry :=
  agent.BoundTool (as_tool entry).

(** Two agents that differ in their history at most. *)
Definition same_settings (a b : agent.Agent) : Prop :=
  agent.name a = agent.name b
  /\ agent.model a = agent.model b
  /\ agent.system_prompt a = agent.system_prompt b
  /\ agent.tools a = agent.tools b
  /\ agent.memory_enabled a = agent.memory_enabled b
  /\ agent.max_tokens a = agent.max_tokens b
  /\ agent.temperature a = agent.temperature b
  /\ agent._client a = agent._client b.

(** The entries that one call of [run] adds to the history of [self]. *)
Definition added_by (self : agent.Agent) (message : string) : list py.value :=
  if agent.memory_enabled self
  then spec.exchange (agent.name self) message
  else [ agent.message_entry "user" message ].

(** The request a method sends first, given the transport. *)
Definition request_of {A : Type} (m : http.io A) (send : httpx.transport)
    : option httpx.Request :=
  hd_error (snd (m send [])).

(** A transport that answers every request with the same result. *)
Definition always (answer : httpx.sent) : httpx.transport := fun _ => answer.

(** An error response with the given status and body text. *)
Definition error_response (status_code : Z) (text : string) : httpx.Response :=
  {| httpx.status_code := status_code;
     httpx.text := text;
     httpx.is_error := true;
     httpx.json_body :=
       exceptions.Raise (exceptions.Builtin "JSONDecodeError" "Expecting value") |}.

(** A successful response whose body parses to [body]. *)
Definition ok_response (body : py.value) : httpx.Response :=
  {| httpx.status_code := 200;
     httpx.text := EmptyString;
     httpx.is_error := false;
     httpx.json_body := exceptions.Return body |}.

End more.

(** ** Association lists as dictionaries *)

Section DictFacts.
Variable V : Type.
Implicit Types (d : py.dict V) (k : string) (v : V).

Lemma get_set_same k v d : py.get k (py.set k v d) = Some v.
Proof.
  induction d as [|[k' v'] d IH]; simpl.
  - now rewrite String.eqb_refl.
  - destruct (String.eqb k' k) eqn:E; simpl; rewrite E; auto.
Qed.

Lemma get_set_other k k' v d :
  k <> k' -> py.get k (py.set k' v d) = py.get k d.
Proof.
  intros Hne. induction d as [|[k0 v0] d IH]; simpl.
  - destruct (String.eqb k' k) eqn:E; auto.
    apply String.eqb_eq in E. congruence.
  - destruct (String.eqb k0 k') eqn:E; simpl.
    + apply String.eqb_eq in E. subst k0.
      destruct (String.eqb k' k) eqn:E'; auto.
      apply String.eqb_eq in E'. congruence.
    + now rewrite IH.
Qed.

Lemma get_none_not_key k d : py.get k d = None <-> ~ In k (py.keys d).
Proof.
  induction d as [|[k' v'] d IH]; simpl.
  - tauto.
  - destruct (String.eqb k' k) eqn:E.
    + apply String.eqb_eq in E. split; [discriminate | intros H; exfalso; auto].
    + apply String.eqb_neq in E. rewrite IH. tauto.
Qed.

Lemma set_fresh k v d : py.get k d = None -> py.set k v d = (d ++ [(k, v)])%list.
Proof.
  induction d as [|[k' v'] d IH]; simpl; auto.
  destruct (String.eqb k' k); [discriminate|].
  intros H. now rewrite IH.
Qed.

End DictFacts.

(** ** The type table *)

Lemma python_type_to_json_kind (t : inspect.pytype) :
  tool._python_type_to_json t = spec.kind_of (Some t).
Proof. destruct t; reflexivity. Qed.

Lemma python_type_to_json_hint (hints : py.dict inspect.pytype) (n : string) :
  tool._python_type_to_json (py.get_default n inspect.T_str hints)
  = spec.kind_of (py.get n hints).
Proof.
  unfold py.get_default. destruct (py.get n hints) as [t|].
  - apply python_type_to_json_kind.
  - reflexivity.
Qed.

Lemma outside_table_string (t : inspect.pytype) :
  spec.outside_table t -> tool._python_type_to_json t = "string".
Proof.
  unfold spec.outside_table. intros H.
  destruct t; try reflexivity; exfalso; intuition congruence.
Qed.

(** ** The loop of [from_function] *)

Section Loop.
Import inspect.
Variable hints : py.dict pytype.

Lemma step_receiver acc p :
  spec.is_receiver p = true -> tool.from_function_step hints acc p = acc.
Proof.
  unfold tool.from_function_step, spec.is_receiver. destruct acc. intros ->. reflexivity.
Qed.

Lemma step_described properties required p :
  spec.is_receiver p = false ->
  tool.from_function_step hints (properties, required) p
  = (py.set (name p) (spec.property_entry (py.get (name p) hints) (name p)) properties,
     if spec.lacks_default p then (required ++ [name p])%list else required).
Proof.
  unfold tool.from_function_step, spec.is_receiver, spec.lacks_default,
    spec.property_entry, spec.parameter_schema.
  intros ->. rewrite python_type_to_json_hint.
  destruct (default p); reflexivity.
Qed.

Lemma loop_required ps : forall properties required,
  snd (fold_left (tool.from_function_step hints) ps (properties, required))
  = (required ++ spec.required_names ps)%list.
Proof.
  unfold spec.required_names, spec.declared.
  induction ps as [|p ps IH]; intros properties required; cbn [fold_left filter].
  - cbn. now rewrite app_nil_r.
  - destruct (spec.is_receiver p) eqn:R; cbn [negb].
    + rewrite step_receiver by assumption. apply IH.
    + rewrite step_described by assumption. rewrite IH. cbn [filter].
      destruct (spec.lacks_default p); cbn [map]; auto.
      now rewrite <- app_assoc.
Qed.

Lemma loop_properties_get n ps : forall properties required,
  py.get n (fst (fold_left (tool.from_function_step hints) ps (properties, required)))
  = if existsb (fun p => String.eqb (name p) n) (spec.declared ps)
    then Some (spec.property_entry (py.get n hints) n)
    else py.get n properties.
Proof.
  unfold spec.declared.
  induction ps as [|p ps IH]; intros properties required; cbn [fold_left filter].
  - reflexivity.
  - destruct (spec.is_receiver p) eqn:R; cbn [negb].
    + rewrite step_receiver by assumption. apply IH.
    + rewrite step_described by assumption. rewrite IH. cbn [existsb].
      destruct (existsb _ (filter _ ps)) eqn:E.
      * now rewrite orb_true_r.
      * rewrite orb_false_r. destruct (String.eqb (name p) n) eqn:En.
        -- apply String.eqb_eq in En. subst n. apply get_set_same.
        -- apply String.eqb_neq in En. apply get_set_other. congruence.
Qed.

Lemma nodup_middle (A : Type) (a : A) (l1 l2 : list A) :
  NoDup (l1 ++ a :: l2) -> NoDup ((l1 ++ [a]) ++ l2).
Proof. now rewrite <- app_assoc. Qed.

Lemma loop_properties_nodup ps : forall properties required,
  NoDup (py.keys properties ++ map name (spec.declared ps)) ->
  fst (fold_left (tool.from_function_step hints) ps (properties, required))
  = (properties
     ++ map (fun p => (name p, spec.property_entry (py.get (name p) hints) (name p)))
          (spec.declared ps))%list.
Proof.
  unfold spec.declared.
  induction ps as [|p ps IH]; intros properties required; cbn [fold_left filter].
  - intros _. cbn. now rewrite app_nil_r.
  - destruct (spec.is_receiver p) eqn:R; cbn [negb].
    + rewrite step_receiver by assumption. apply IH.
    + cbn [map]. intros ND. rewrite step_described by assumption.
      assert (Hfresh : py.get (name p) properties = None).
      { apply get_none_not_key. intros Hin.
        apply NoDup_remove_2 in ND. apply ND. apply in_or_app. now left. }
      rewrite set_fresh by assumption. rewrite IH.
      * rewrite <- app_assoc. reflexivity.
      * unfold py.keys in *. rewrite map_app. cbn [map fst].
        now apply nodup_middle.
Qed.

End Loop.

(** ** What [from_function] computes *)

Section FromFunction.
Import inspect.
Variable func : Callable.

Lemma loop_hints_get n :
  py.get n (if hasattr_annotations func then get_type_hints func else [])
  = spec.annotation_of func n.
Proof.
  unfold hasattr_annotations, get_type_hints, spec.annotation_of.
  destruct (__annotations__ func); reflexivity.
Qed.

Lemma from_function_required :
  snd (tool.from_function_loop func) = spec.required_names (signature func).
Proof. unfold tool.from_function_loop. now rewrite loop_required. Qed.

Lemma from_function_property n :
  py.get n (fst (tool.from_function_loop func))
  = if existsb (fun p => String.eqb (name p) n) (spec.declared (signature func))
    then Some (spec.property_entry (spec.annotation_of func n) n)
    else None.
Proof.
  unfold tool.from_function_loop. rewrite loop_properties_get, loop_hints_get.
  reflexivity.
Qed.

Lemma from_function_parameters_shape :
  tool.from_function_parameters func
  = ([ ("type", py.Str "object");
       ("properties", py.Dict (fst (tool.from_function_loop func))) ]
     ++ match spec.required_names (signature func) with
        | [] => []
        | _ :: _ =>
            [ ("required",
               py.List (map py.Str (spec.required_names (signature func)))) ]
        end)%list.
Proof.
  unfold tool.from_function_parameters.
  rewrite <- from_function_required.
  destruct (tool.from_function_loop func) as [properties required].
  destruct required; reflexivity.
Qed.

Lemma from_function_required_key :
  py.get "required" (tool.from_function_parameters func)
  = match spec.required_names (signature func) with
    | [] => None
    | _ :: _ => Some (py.List (map py.Str (spec.required_names (signature func))))
    end.
Proof.
  rewrite from_function_parameters_shape.
  destruct (spec.required_names (signature func)); reflexivity.
Qed.

End FromFunction.

Lemma declared_incl (ps : list inspect.Param) (n : string) :
  In n (map inspect.name (spec.declared ps)) -> In n (map inspect.name ps).
Proof.
  unfold spec.declared. rewrite !in_map_iff.
  intros (q & Hq & Hin). apply filter_In in Hin. exists q. tauto.
Qed.

Lemma declared_names_distinct (ps : list inspect.Param) :
  NoDup (map inspect.name ps) -> NoDup (map inspect.name (spec.declared ps)).
Proof.
  induction ps as [|q ps IH]; intros Hnd; [exact Hnd|].
  apply NoDup_cons_iff in Hnd as [Hfresh Hrest].
  unfold spec.declared in *. cbn [filter].
  destruct (negb (spec.is_receiver q)); [|now apply IH].
  cbn [map]. apply NoDup_cons_iff. split; [|now apply IH].
  intros Hin. apply Hfresh. now apply declared_incl.
Qed.

Lemma declared_existsb (ps : list inspect.Param) (p : inspect.Param) :
  In p ps -> inspect.name p <> "self" ->
  existsb (fun q => String.eqb (inspect.name q) (inspect.name p)) (spec.declared ps) = true.
Proof.
  intros Hin Hne. apply existsb_exists. exists p. split.
  - apply filter_In. split; auto. unfold spec.is_receiver.
    destruct (String.eqb (inspect.name p) "self") eqn:E; auto.
    apply String.eqb_eq in E. contradiction.
  - apply String.eqb_refl.
Qed.

Lemma required_names_in (ps : list inspect.Param) (n : string) :
  In n (spec.required_names ps)
  <-> exists p, In p ps /\ inspect.name p = n /\ n <> "self" /\ inspect.default p = None.
Proof.
  unfold spec.required_names, spec.declared, spec.is_receiver, spec.lacks_default.
  rewrite in_map_iff. split.
  - intros (p & Hn & Hin). apply filter_In in Hin as [Hin Hd].
    apply filter_In in Hin as [Hin Hr]. exists p. repeat split; auto.
    + subst n. intros E. apply String.eqb_eq in E. rewrite E in Hr. discriminate.
    + destruct (inspect.default p); [discriminate | reflexivity].
  - intros (p & Hin & Hn & Hs & Hd). exists p. split; auto.
    apply filter_In. split.
    + apply filter_In. split; auto. subst n.
      destruct (String.eqb (inspect.name p) "self") eqn:E; auto.
      apply String.eqb_eq in E. contradiction.
    + now rewrite Hd.
Qed.

(** ** Tool: serialization *)

Lemma from_function_parameters_derive (func : inspect.Callable) :
  NoDup (map inspect.name (inspect.signature func)) ->
  tool.from_function_parameters func = spec.derive_schema func.
Proof.
  intros ND. rewrite from_function_parameters_shape.
  unfold spec.derive_schema, tool.from_function_loop.
  rewrite loop_properties_nodup
    by (cbn [py.keys map app]; now apply declared_names_distinct).
  cbn [app]. fold (spec.required_names (inspect.signature func)).
  do 4 f_equal. apply map_ext. intros p. now rewrite loop_hints_get.
Qed.

(** C4. For every callable [func] (its signature, as always, naming each
    parameter once), [Tool.from_function(func).to_dict()] is
    [{type: "function", function: {name, description, parameters}}] with
    [parameters] exactly the schema that section 4.1 derives for [func];
    and [to_dict] reads the tool's name, description and parameters only,
    so its result is fixed by them. *)
Theorem to_dict_from_function_round_trip (func : inspect.Callable) :
  NoDup (map inspect.name (inspect.signature func)) ->
  tool.to_dict (tool.from_function func)
  = py.Dict
      [ ("type", py.Str "function");
        ("function",
          py.Dict
            [ ("name", py.Str (tool.name (tool.from_function func)));
              ("description", py.Str (tool.description (tool.from_function func)));
              ("parameters", py.Dict (spec.derive_schema func)) ]) ]
  /\ tool.parameters (tool.from_function func) = spec.derive_schema func
  /\ forall (t : tool.Tool) (bound : option inspect.Callable),
       tool.to_dict t
       = tool.to_dict {| tool.name := tool.name t;
                         tool.description := tool.description t;
                         tool.parameters := tool.parameters t;
                         tool.function := bound |}.
Proof.
  intros ND. pose proof (from_function_parameters_derive func ND) as E.
  repeat split.
  - unfold tool.to_dict. cbn [tool.from_function tool.parameters]. now rewrite E.
  - exact E.
Qed.

Lemma to_dict_from_function_round_trip_greet :
  NoDup (map inspect.name (inspect.signature examples.greet))
  /\ tool.to_dict (tool.from_function examples.greet)
     = py.Dict
         [ ("type", py.Str "function");
           ("function",
             py.Dict
               [ ("name", py.Str "greet");
                 ("description", py.Str "Greets a person.");
                 ("parameters", py.Dict (spec.derive_schema examples.greet)) ]) ].
Proof.
  assert (ND : NoDup (map inspect.name (inspect.signature examples.greet))).
  { cbn. constructor; [intros [] | constructor]. }
  split; [exact ND|].
  exact (proj1 (to_dict_from_function_round_trip examples.greet ND)).
Defined.

(** ** Schema derivation *)

Lemma from_function_properties_key (func : inspect.Callable) :
  py.get "properties" (tool.parameters (tool.from_function func))
  = Some (py.Dict (fst (tool.from_function_loop func))).
Proof.
  cbn [tool.from_function tool.parameters].
  now rewrite from_function_parameters_shape.
Qed.

(** C5. A callable named [greet] whose only parameter [name] is annotated
    [str] derives to the tool named [greet] with parameters
    [{type: "object", properties: {name: {type: "string", description:
    "Parameter: name"}}, required: ["name"]}]; its description is the
    docstring with surrounding whitespace trimmed, or [Execute greet] when
    there is no docstring (or an empty one), which for the docstring
    [Greets a person.] is that very text. *)
Theorem from_function_greet (func : inspect.Callable) (doc : option string) :
  inspect.__name__ func = "greet" ->
  inspect.__doc__ func = doc ->
  inspect.signature func = [ {| inspect.name := "name"; inspect.default := None |} ] ->
  spec.annotation_of func "name" = Some inspect.T_str ->
  tool.from_function func
  = {| tool.name := "greet";
       tool.description :=
         match doc with
         | Some (String c rest) => py.strip (String c rest)
         | Some EmptyString | None => "Execute greet"
         end;
       tool.parameters :=
         [ ("type", py.Str "object");
           ("properties",
             py.Dict
               [ ("name",
                   py.Dict [ ("type", py.Str "string");
                             ("description", py.Str "Parameter: name") ]) ]);
           ("required", py.List [ py.Str "name" ]) ];
       tool.function := Some func |}
  /\ (doc = Some "Greets a person." ->
      tool.description (tool.from_function func) = "Greets a person.").
Proof.
  intros Hname Hdoc Hsig Hann.
  assert (ND : NoDup (map inspect.name (inspect.signature func))).
  { rewrite Hsig. cbn. constructor; [intros [] | constructor]. }
  assert (Hdesc : tool.description (tool.from_function func)
                  = match doc with
                    | Some (String c rest) => py.strip (String c rest)
                    | Some EmptyString | None => "Execute greet"
                    end).
  { cbn [tool.from_function tool.description]. rewrite Hname, Hdoc.
    destruct doc as [[|c rest]|]; reflexivity. }
  split.
  - unfold tool.from_function at 1.
    cbn [tool.from_function tool.description] in Hdesc. rewrite Hdesc.
    rewrite (from_function_parameters_derive func ND).
    unfold spec.derive_schema. rewrite Hsig. cbn. rewrite Hann, Hname.
    reflexivity.
  - intros ->. rewrite Hdesc. reflexivity.
Qed.

Lemma from_function_greet_example :
  tool.from_function examples.greet
  = {| tool.name := "greet";
       tool.description := "Greets a person.";
       tool.parameters :=
         [ ("type", py.Str "object");
           ("properties",
             py.Dict
               [ ("name",
                   py.Dict [ ("type", py.Str "string");
                             ("description", py.Str "Parameter: name") ]) ]);
           ("required", py.List [ py.Str "name" ]) ];
       tool.function := Some examples.greet |}.
Proof.
  exact (proj1 (from_function_greet examples.greet
                  eq_refl eq_refl eq_refl eq_refl)).
Defined.

(** C6. A callable with parameters [(a: str, b: int = ...)] derives
    properties [a] of kind [string] and [b] of kind [integer] and
    [required = [a]].  In general the loop's [required] list is, in
    declaration order, the names of the described parameters that have no
    default value: a name is in it if and only if a parameter of that name
    (not the receiver [self]) has no default. *)
Theorem from_function_required_iff_no_default :
  (forall (func : inspect.Callable) (d : py.value),
     inspect.signature func
     = [ {| inspect.name := "a"; inspect.default := None |};
         {| inspect.name := "b"; inspect.default := Some d |} ] ->
     spec.annotation_of func "a" = Some inspect.T_str ->
     spec.annotation_of func "b" = Some inspect.T_int ->
     tool.parameters (tool.from_function func)
     = [ ("type", py.Str "object");
         ("properties",
           py.Dict
             [ ("a", py.Dict [ ("type", py.Str "string");
                               ("description", py.Str "Parameter: a") ]);
               ("b", py.Dict [ ("type", py.Str "integer");
                               ("description", py.Str "Parameter: b") ]) ]);
         ("required", py.List [ py.Str "a" ]) ])
  /\ (forall func : inspect.Callable,
        snd (tool.from_function_loop func)
        = map inspect.name
            (filter spec.lacks_default (spec.declared (inspect.signature func)))
        /\ py.get "required" (tool.parameters (tool.from_function func))
           = match snd (tool.from_function_loop func) with
             | [] => None
             | required => Some (py.List (map py.Str required))
             end
        /\ forall n : string,
             In n (snd (tool.from_function_loop func))
             <-> exists p, In p (inspect.signature func) /\ inspect.name p = n
                           /\ n <> "self" /\ inspect.default p = None).
Proof.
  split.
  - intros func d Hsig Ha Hb.
    assert (ND : NoDup (map inspect.name (inspect.signature func))).
    { rewrite Hsig. cbn. repeat constructor; cbn; intuition discriminate. }
    cbn [tool.from_function tool.parameters].
    rewrite (from_function_parameters_derive func ND).
    unfold spec.derive_schema. rewrite Hsig. cbn. now rewrite Ha, Hb.
  - intros func. rewrite from_function_required. repeat split.
    + cbn [tool.from_function tool.parameters].
      rewrite from_function_required_key.
      destruct (spec.required_names (inspect.signature func)); reflexivity.
    + apply required_names_in.
    + apply required_names_in.
Qed.

Lemma from_function_required_scale :
  tool.parameters (tool.from_function examples.scale)
  = [ ("type", py.Str "object");
      ("properties",
        py.Dict
          [ ("a", py.Dict [ ("type", py.Str "string");
                            ("description", py.Str "Parameter: a") ]);
            ("b", py.Dict [ ("type", py.Str "integer");
                            ("description", py.Str "Parameter: b") ]) ]);
      ("required", py.List [ py.Str "a" ]) ].
Proof.
  exact (proj1 from_function_required_iff_no_default examples.scale (py.Int 0)
           eq_refl eq_refl eq_refl).
Defined.

Lemma required_names_all_defaults (ps : list inspect.Param) :
  (forall p, In p ps -> inspect.default p <> None) -> spec.required_names ps = [].
Proof.
  intros H. destruct (spec.required_names ps) as [|n l] eqn:E; auto.
  assert (Hin : In n (spec.required_names ps)) by (rewrite E; now left).
  apply required_names_in in Hin as (p & Hin & _ & _ & Hd).
  exfalso. exact (H p Hin Hd).
Qed.

(** C7. When every parameter of a callable has a default value, the derived
    schema has the keys [type] and [properties] and no [required] key at
    all; for a callable without parameters it is
    [{type: "object", properties: {}}]. *)
Theorem from_function_omits_required (func : inspect.Callable) :
  (forall p, In p (inspect.signature func) -> inspect.default p <> None) ->
  py.get "required" (tool.parameters (tool.from_function func)) = None
  /\ py.keys (tool.parameters (tool.from_function func)) = [ "type"; "properties" ]
  /\ match inspect.signature func with
     | [] => tool.parameters (tool.from_function func)
             = [ ("type", py.Str "object"); ("properties", py.Dict []) ]
     | _ :: _ => True
     end.
Proof.
  intros H. pose proof (required_names_all_defaults _ H) as E.
  cbn [tool.from_function tool.parameters].
  rewrite from_function_required_key, from_function_parameters_shape, E.
  repeat split.
  unfold tool.from_function_loop.
  destruct (inspect.signature func); [reflexivity | exact I].
Qed.

Lemma from_function_omits_required_page :
  py.get "required" (tool.parameters (tool.from_function examples.page)) = None
  /\ py.keys (tool.parameters (tool.from_function examples.page))
     = [ "type"; "properties" ]
  /\ tool.parameters (tool.from_function examples.ping)
     = [ ("type", py.Str "object"); ("properties", py.Dict []) ].
Proof.
  assert (H : forall p, In p (inspect.signature examples.page)
                        -> inspect.default p <> None).
  { cbn. intros p [<-|[<-|[]]]; discriminate. }
  assert (H0 : forall p, In p (inspect.signature examples.ping)
                         -> inspect.default p <> None).
  { cbn. intros p []. }
  split; [|split].
  - exact (proj1 (from_function_omits_required examples.page H)).
  - exact (proj1 (proj2 (from_function_omits_required examples.page H))).
  - exact (proj2 (proj2 (from_function_omits_required examples.ping H0))).
Defined.

(** C9. A described parameter (any parameter but the receiver [self]) whose
    annotation is absent, or is a type object other than the six keys of
    the table [str, int, float, bool, list, dict], gets the kind [string]:
    its entry in [properties] is
    [{type: "string", description: "Parameter: <name>"}]. *)
Theorem from_function_defaults_to_string (func : inspect.Callable) (p : inspect.Param) :
  In p (inspect.signature func) ->
  inspect.name p <> "self" ->
  (spec.annotation_of func (inspect.name p) = None
   \/ exists t, spec.annotation_of func (inspect.name p) = Some t
                /\ spec.outside_table t) ->
  exists properties,
    py.get "properties" (tool.parameters (tool.from_function func))
    = Some (py.Dict properties)
    /\ py.get (inspect.name p) properties
       = Some (py.Dict [ ("type", py.Str "string");
                         ("description", py.Str ("Parameter: " ++ inspect.name p)) ]).
Proof.
  intros Hin Hne Hann.
  exists (fst (tool.from_function_loop func)). split.
  - apply from_function_properties_key.
  - rewrite from_function_property, declared_existsb by assumption.
    unfold spec.property_entry, spec.parameter_schema.
    destruct Hann as [E | (t & E & Hout)]; rewrite E; [reflexivity|].
    rewrite <- python_type_to_json_kind, (outside_table_string Hout).
    reflexivity.
Qed.

Lemma from_function_defaults_to_string_store :
  exists properties,
    py.get "properties" (tool.parameters (tool.from_function examples.store))
    = Some (py.Dict properties)
    /\ py.get "blob" properties
       = Some (py.Dict [ ("type", py.Str "string");
                         ("description", py.Str "Parameter: blob") ]).
Proof.
  apply (from_function_defaults_to_string examples.store
           {| inspect.name := "blob"; inspect.default := None |}).
  - cbn. right. now left.
  - discriminate.
  - right. exists (inspect.OtherClass "bytes"). split; [reflexivity|].
    unfold spec.outside_table. repeat split; discriminate.
Defined.

(** ** Tool: invocation *)

(** C2, as stated, fails.  The tool made from [divide] raises the function's
    own [ZeroDivisionError]: no [ToolError] carrying the tool's name and the
    message reaches the caller.  And a tool without a function fails with a
    [ValueError] that a bound function raising the same [ValueError]
    reproduces exactly, so the two failures are not told apart. *)
Lemma call_does_not_wrap_failures :
  tool.__call__ (tool.from_function examples.divide) []
  = exceptions.Raise (exceptions.Builtin "ZeroDivisionError" "division by zero")
  /\ tool.__call__ (tool.from_function examples.divide) []
     <> exceptions.Raise (exceptions.ToolError__init__ "divide" "division by zero")
  /\ (forall tool_name message,
        tool.__call__ (tool.from_function examples.divide) []
        <> exceptions.Raise (exceptions.ToolError tool_name message))
  /\ tool.function examples.remote = None
  /\ tool.function examples.remote_bound = Some examples.impostor
  /\ tool.__call__ examples.remote [] = tool.__call__ examples.remote_bound [].
Proof.
  repeat split; try reflexivity; discriminate.
Qed.

(** C2, amended.  Invoking a tool that has no bound function fails with
    a [ValueError] whose message is [Tool '<name>' has no function defined];
    building such a tool and serializing it succeed.  When the bound
    function raises, that very exception reaches the caller, unwrapped and
    unchanged; and a call returns a value only if the bound function
    returned it, so no failure is swallowed. *)
Theorem call_propagates_unchanged (t : tool.Tool) (kwargs : py.dict py.value) :
  (tool.function t = None ->
   tool.__call__ t kwargs
   = exceptions.Raise
       (exceptions.Builtin "ValueError"
          ("Tool '" ++ tool.name t ++ "' has no function defined")))
  /\ (forall f e,
        tool.function t = Some f ->
        inspect.call f kwargs = exceptions.Raise e ->
        tool.__call__ t kwargs = exceptions.Raise e)
  /\ (forall v,
        tool.__call__ t kwargs = exceptions.Return v ->
        exists f, tool.function t = Some f
                  /\ inspect.call f kwargs = exceptions.Return v)
  /\ (forall name description,
        tool.function (tool.Tool__init__ name description None None) = None
        /\ tool.to_dict (tool.Tool__init__ name description None None)
           = py.Dict
               [ ("type", py.Str "function");
                 ("function",
                   py.Dict [ ("name", py.Str name);
                             ("description", py.Str description);
                             ("parameters", py.Dict []) ]) ]).
Proof.
  unfold tool.__call__. repeat split.
  - intros ->. reflexivity.
  - intros f e -> He. exact He.
  - intros v. destruct (tool.function t) as [f|]; [|discriminate].
    intros Hv. now exists f.
Qed.

Lemma call_propagates_unchanged_examples :
  tool.__call__ examples.remote []
  = exceptions.Raise
      (exceptions.Builtin "ValueError" "Tool 'remote' has no function defined")
  /\ tool.__call__ (tool.from_function examples.divide) []
     = exceptions.Raise (exceptions.Builtin "ZeroDivisionError" "division by zero").
Proof.
  split.
  - exact (proj1 (call_propagates_unchanged examples.remote []) eq_refl).
  - exact (proj1 (proj2 (call_propagates_unchanged
                           (tool.from_function examples.divide) []))
             examples.divide _ eq_refl eq_refl).
Defined.

(** ** Agent: conversation history *)

Section Run.
Variable self : agent.Agent.
Variable message : string.
Variable context : option (py.dict py.value).

Lemma run_history :
  agent._conversation_history (snd (agent.run self message context))
  = (agent._conversation_history self
     ++ agent.message_entry "user" message
        :: (if agent.memory_enabled self
            then [ agent.message_entry "assistant"
                     (spec.reply (agent.name self) message) ]
            else []))%list.
Proof.
  unfold agent.run, agent.run_body, spec.reply.
  cbn [snd agent.self_after agent.history_append agent.memory_enabled
       agent.name agent.content].
  destruct (agent.memory_enabled self);
    cbn [agent.history_append agent._conversation_history].
  - now rewrite <- app_assoc.
  - reflexivity.
Qed.

Lemma run_memory_enabled :
  agent.memory_enabled (snd (agent.run self message context))
  = agent.memory_enabled self.
Proof.
  unfold agent.run, agent.run_body.
  cbn [snd agent.self_after agent.history_append agent.memory_enabled].
  destruct (agent.memory_enabled self) eqn:E; cbn; exact E.
Qed.

Lemma run_name :
  agent.name (snd (agent.run self message context)) = agent.name self.
Proof.
  unfold agent.run, agent.run_body.
  cbn [snd agent.self_after agent.history_append agent.memory_enabled].
  destruct (agent.memory_enabled self); reflexivity.
Qed.

Lemma run_request_messages :
  py.get "messages" (agent.request (agent.run_body self message context))
  = Some (if agent.memory_enabled self
          then py.List (agent._conversation_history self
                        ++ [agent.message_entry "user" message])%list
          else py.List [agent.message_entry "user" message]).
Proof.
  unfold agent.run_body.
  cbn [agent.request agent.history_append agent.memory_enabled
       agent.system_prompt agent.tools agent.model agent.max_tokens
       agent.temperature agent._conversation_history].
  assert (Htools : forall d : py.dict py.value,
            py.get "messages"
              match agent.tools self with
              | [] => d
              | _ :: _ =>
                  py.set "tools" (py.List (map tool.to_dict (agent.tools self))) d
              end
            = py.get "messages" d).
  { intros d. destruct (agent.tools self); [reflexivity|].
    apply get_set_other. discriminate. }
  rewrite Htools.
  destruct (py.opt_str_truthy (agent.system_prompt self)).
  - rewrite get_set_other by discriminate. reflexivity.
  - reflexivity.
Qed.

End Run.

Lemma run_all_memory_enabled calls : forall self,
  agent.memory_enabled (agent.run_all self calls) = agent.memory_enabled self.
Proof.
  induction calls as [|[message context] calls IH]; intros self; cbn [agent.run_all].
  - reflexivity.
  - now rewrite IH, run_memory_enabled.
Qed.

Lemma run_all_history calls : forall self,
  agent._conversation_history (agent.run_all self calls)
  = (agent._conversation_history self
     ++ flat_map
          (fun call =>
             if agent.memory_enabled self
             then spec.exchange (agent.name self) (fst call)
             else [agent.message_entry "user" (fst call)])
          calls)%list.
Proof.
  induction calls as [|[message context] calls IH]; intros self;
    cbn [agent.run_all flat_map fst].
  - now rewrite app_nil_r.
  - rewrite IH, run_history, run_memory_enabled, run_name.
    rewrite <- app_assoc. f_equal.
    destruct (agent.memory_enabled self); reflexivity.
Qed.

Lemma nth_error_exchanges (agent_name : string)
    (calls : list (string * option (py.dict py.value))) :
  forall i message,
    nth_error (spec.messages_of calls) i = Some message ->
    nth_error (flat_map (fun call => spec.exchange agent_name (fst call)) calls) (2 * i)
    = Some (agent.message_entry "user" message)
    /\ nth_error (flat_map (fun call => spec.exchange agent_name (fst call)) calls)
         (2 * i + 1)
       = Some (agent.message_entry "assistant" (spec.reply agent_name message)).
Proof.
  unfold spec.messages_of.
  induction calls as [|[m c] calls IH]; intros i message H.
  - destruct i; discriminate.
  - destruct i as [|i].
    + cbn in H. injection H as ->. split; reflexivity.
    + cbn [map nth_error fst] in H. specialize (IH i message H).
      replace (2 * S i) with (S (S (2 * i))) by lia.
      replace (S (S (2 * i)) + 1) with (S (S (2 * i + 1))) by lia.
      exact IH.
Qed.

(** C3. An agent constructed with [memory_enabled=True] (its history
    left to start empty, as the constructor does by default) has, after any
    sequence of [N] calls to [run], a history of exactly [2N] entries: for
    each call, in call order, the user's message followed by the
    assistant's reply. *)
Theorem run_with_memory_records_exchanges
    (name model : string) (system_prompt : option string)
    (tools : list agent.tool_entry) (max_tokens : Z) (temperature : float)
    (_client : option py.value)
    (calls : list (string * option (py.dict py.value))) :
  let self :=
    agent.run_all
      (agent.Agent__init__ name model system_prompt tools true max_tokens
         temperature None _client)
      calls in
  agent._conversation_history self
  = flat_map (fun call => spec.exchange name (fst call)) calls
  /\ length (agent._conversation_history self) = 2 * length calls
  /\ forall i message,
       nth_error (spec.messages_of calls) i = Some message ->
       nth_error (agent._conversation_history self) (2 * i)
       = Some (py.Dict [ ("role", py.Str "user"); ("content", py.Str message) ])
       /\ nth_error (agent._conversation_history self) (2 * i + 1)
          = Some (py.Dict [ ("role", py.Str "assistant");
                            ("content", py.Str (spec.reply name message)) ]).
Proof.
  intros self.
  assert (E : agent._conversation_history self
              = flat_map (fun call => spec.exchange name (fst call)) calls).
  { unfold self. rewrite run_all_history. reflexivity. }
  rewrite E. repeat split.
  - clear. induction calls as [|call calls IH]; cbn [flat_map]; auto.
    rewrite length_app, IH. cbn. lia.
  - now apply nth_error_exchanges.
  - now apply nth_error_exchanges.
Qed.

(** C10. Every call to [run] appends the user's message to the history,
    whatever [memory_enabled] says.  So an agent constructed with
    [memory_enabled=False], its history starting empty, holds, after [N] calls, exactly the [N] user
    messages in call order, while the request built by a further call lists
    just the one current message. *)
Theorem run_appends_user_message_unconditionally :
  (forall (self : agent.Agent) (message : string)
          (context : option (py.dict py.value)),
     exists tail,
       agent._conversation_history (snd (agent.run self message context))
       = (agent._conversation_history self
          ++ py.Dict [ ("role", py.Str "user"); ("content", py.Str message) ]
             :: tail)%list)
  /\ (forall (name model : string) (system_prompt : option string)
             (tools : list agent.tool_entry) (max_tokens : Z) (temperature : float)
             (_client : option py.value)
             (calls : list (string * option (py.dict py.value))),
        let self :=
          agent.run_all
            (agent.Agent__init__ name model system_prompt tools false
               max_tokens temperature None _client)
            calls in
        agent._conversation_history self
        = map (fun call => agent.message_entry "user" (fst call)) calls
        /\ length (agent._conversation_history self) = length calls
        /\ forall message context,
             py.get "messages"
               (agent.request (agent.run_body self message context))
             = Some (py.List [ agent.message_entry "user" message ])).
Proof.
  split.
  - intros self message context. rewrite run_history. eauto.
  - intros name model system_prompt tools max_tokens temperature _client calls self.
    assert (E : agent._conversation_history self
                = map (fun call => agent.message_entry "user" (fst call)) calls).
    { unfold self. rewrite run_all_history. cbn [agent.Agent__init__
        agent._conversation_history agent.memory_enabled app].
      clear. induction calls as [|call calls IH]; cbn [flat_map map app]; congruence. }
    rewrite E. repeat split.
    + apply length_map.
    + intros message context. rewrite run_request_messages.
      unfold self. rewrite run_all_memory_enabled. reflexivity.
Qed.

(** C1 fails on the code: an agent constructed with the default
    [memory_enabled=False] keeps the user's message after one call to
    [run], so its history has length 1, not 0. *)
Theorem run_without_memory_grows_history :
  agent.memory_enabled examples.helper = false
  /\ agent._conversation_history examples.helper = []
  /\ agent._conversation_history (agent.run_all examples.helper [ ("hello", None) ])
     = [ py.Dict [ ("role", py.Str "user"); ("content", py.Str "hello") ] ]
  /\ length (agent._conversation_history
               (agent.run_all examples.helper [ ("hello", None) ])) = 1.
Proof. repeat split. Qed.

(** ** Client: credential check *)

(** C8. Constructing a [Client] without an API key, or with one that does
    not start with [ggt_], raises [AuthenticationError], and the outside
    world is as it was: no [httpx.Client] has been built, so nothing can
    have been sent. *)
Theorem init_rejects_malformed_key
    (world : list client.effect) (api_key base_url : option string)
    (timeout : Z) (debug : bool) :
  match api_key with
  | Some key => py.startswith "ggt_" key = false
  | None => True
  end ->
  exists message,
    client.__init__ world api_key base_url timeout debug
    = (exceptions.Raise (exceptions.AuthenticationError message), world).
Proof.
  unfold client.__init__. destruct api_key as [key|].
  - intros H. cbn [py.opt_str_truthy]. destruct key as [|c key].
    + cbn. eauto.
    + cbn [py.str_truthy negb]. rewrite H. cbn. eauto.
  - intros _. cbn. eauto.
Qed.

Lemma init_rejects_malformed_key_examples :
  (exists message,
     client.__init__ [] (Some "invalid_key") None 30 false
     = (exceptions.Raise (exceptions.AuthenticationError message), []))
  /\ (exists message,
        client.__init__ [] None None 30 false
        = (exceptions.Raise (exceptions.AuthenticationError message), [])).
Proof.
  split.
  - exact (init_rejects_malformed_key [] (Some "invalid_key") None 30 false eq_refl).
  - exact (init_rejects_malformed_key [] None None 30 false I).
Defined.

(** ** The repository's tests, and a few runs of the model *)

(** [test_client_accepts_valid_api_key], [test_client_default_base_url]:
    a well-formed key is accepted, and the one outside effect is the
    [httpx.Client] carrying the bearer token. *)
Example client_accepts_valid_api_key :
  exists http,
    client.__init__ [] (Some "ggt_test_key_12345") None 30 false
    = (exceptions.Return
         {| client.api_key := "ggt_test_key_12345";
            client.base_url := "https://api.gagiteck.com/v1";
            client.timeout := 30;
            client.debug := false;
            client._http_client := http |},
       [ http ])
    /\ http
       = client.HttpxClient "https://api.gagiteck.com/v1"
           [ ("Authorization", "Bearer ggt_test_key_12345");
             ("Content-Type", "application/json");
             ("User-Agent", "gagiteck-python/0.1.0") ]
           30.
Proof. eexists. split; reflexivity. Qed.

(** [test_client_custom_base_url], with a trailing slash to trim. *)
Example client_custom_base_url :
  fst (client.__init__ [] (Some "ggt_test_key") (Some "https://custom.api.com/v1/") 30 false)
  = exceptions.Return
      {| client.api_key := "ggt_test_key";
         client.base_url := "https://custom.api.com/v1";
         client.timeout := 30;
         client.debug := false;
         client._http_client :=
           client.HttpxClient "https://custom.api.com/v1"
             [ ("Authorization", "Bearer ggt_test_key");
               ("Content-Type", "application/json");
               ("User-Agent", "gagiteck-python/0.1.0") ]
             30 |}.
Proof. reflexivity. Qed.

(** A docstring is trimmed on both sides. *)
Example from_function_trims_docstring :
  tool.description (tool.from_function examples.ping) = "Ping the service.".
Proof. reflexivity. Qed.

(** A raw callable and the tool made from it give the same agent, hence the
    same [tools] array in every request. *)
Lemma post_init_normalizes (f : inspect.Callable) :
  agent.__post_init__ [ agent.RawFunction f ]
  = agent.__post_init__ [ agent.BoundTool (tool.from_function f) ].
Proof. reflexivity. Qed.

(** [clear_memory] then one remembered call leaves two entries. *)
Lemma clear_memory_then_run (self : agent.Agent) (message : string)
    (context : option (py.dict py.value)) :
  agent.memory_enabled self = true ->
  length (agent._conversation_history
            (snd (agent.run (agent.clear_memory self) message context))) = 2.
Proof.
  intros Hmem. rewrite run_history.
  cbn [agent.clear_memory agent._conversation_history agent.memory_enabled app].
  now rewrite Hmem.
Qed.

(** ** Schema derivation: shape of the derived schema *)

Lemma declared_no_receiver (ps : list inspect.Param) :
  existsb (fun p => String.eqb (inspect.name p) "self") (spec.declared ps) = false.
Proof.
  unfold spec.declared, spec.is_receiver.
  induction ps as [|q ps IH]; cbn [filter existsb]; [reflexivity|].
  destruct (String.eqb (inspect.name q) "self") eqn:E; cbn [negb existsb]; auto.
  now rewrite E, IH.
Qed.

Lemma declared_existsb_in (ps : list inspect.Param) (n : string) :
  existsb (fun p => String.eqb (inspect.name p) n) (spec.declared ps) = true ->
  n <> "self" /\ In n (map inspect.name ps).
Proof.
  intros H. apply existsb_exists in H as (q & Hin & Hq).
  apply String.eqb_eq in Hq. subst n.
  apply filter_In in Hin as [Hin Hr]. split.
  - intros E. unfold spec.is_receiver in Hr. rewrite E in Hr. discriminate.
  - now apply in_map.
Qed.

(** The keys of the derived [properties] are the names of the declared
    parameters, receiver left out, in declaration order. *)
Theorem properties_in_declaration_order (func : inspect.Callable) :
  NoDup (map inspect.name (inspect.signature func)) ->
  exists properties,
    py.get "properties" (tool.parameters (tool.from_function func))
    = Some (py.Dict properties)
    /\ py.keys properties
       = filter (fun n => negb (String.eqb n "self"))
           (map inspect.name (inspect.signature func)).
Proof.
  intros ND. exists (fst (tool.from_function_loop func)). split.
  - apply from_function_properties_key.
  - unfold tool.from_function_loop.
    rewrite loop_properties_nodup
      by (cbn [py.keys map app]; now apply declared_names_distinct).
    cbn [app]. unfold py.keys, spec.declared, spec.is_receiver.
    rewrite map_map. cbn [fst].
    generalize (inspect.signature func) as ps. clear.
    induction ps as [|q ps IH]; cbn [filter map]; [reflexivity|].
    destruct (negb (String.eqb (inspect.name q) "self")); cbn [map]; now rewrite IH.
Qed.

Lemma properties_in_declaration_order_store :
  exists properties,
    py.get "properties" (tool.parameters (tool.from_function examples.store))
    = Some (py.Dict properties)
    /\ py.keys properties = [ "key"; "blob"; "tags" ].
Proof.
  apply (properties_in_declaration_order examples.store).
  cbn. repeat constructor; cbn; intuition discriminate.
Defined.

(** A parameter called [self] is never described: it is neither a key of
    [properties] nor a member of [required], whatever the callable. *)
Theorem receiver_is_never_described (func : inspect.Callable) :
  py.get "self" (fst (tool.from_function_loop func)) = None
  /\ ~ In "self" (snd (tool.from_function_loop func))
  /\ py.get "properties" (tool.parameters (tool.from_function func))
     = Some (py.Dict (fst (tool.from_function_loop func))).
Proof.
  split; [|split].
  - now rewrite from_function_property, declared_no_receiver.
  - rewrite from_function_required. intros Hin.
    apply required_names_in in Hin as (_ & _ & _ & Hne & _). now apply Hne.
  - apply from_function_properties_key.
Qed.

(** Every entry of the derived [properties] belongs to a declared
    parameter other than [self] and has the shape
    [{type: kind, description: "Parameter: <name>"}] with [kind] one of the
    six JSON kinds; [_python_type_to_json] returns nothing else. *)
Theorem derived_entries_are_well_formed :
  (forall t : inspect.pytype, In (tool._python_type_to_json t) more.kinds)
  /\ (forall (func : inspect.Callable) (n : string) (entry : py.value),
        py.get n (fst (tool.from_function_loop func)) = Some entry ->
        n <> "self"
        /\ In n (map inspect.name (inspect.signature func))
        /\ exists kind,
             In kind more.kinds
             /\ entry = py.Dict [ ("type", py.Str kind);
                                  ("description", py.Str ("Parameter: " ++ n)) ]).
Proof.
  assert (K : forall a, In (spec.kind_of a) more.kinds).
  { intros [[]|]; cbn; tauto. }
  split.
  - intros t. rewrite python_type_to_json_kind. apply K.
  - intros func n entry H. rewrite from_function_property in H.
    destruct (existsb _ _) eqn:E; [|discriminate].
    apply declared_existsb_in in E as [Hne Hin].
    injection H as <-. repeat split; auto.
    exists (spec.kind_of (spec.annotation_of func n)). split; [apply K | reflexivity].
Qed.

Lemma derived_entries_are_well_formed_store :
  "tags" <> "self"
  /\ In "tags" (map inspect.name (inspect.signature examples.store))
  /\ exists kind,
       In kind more.kinds
       /\ py.Dict [ ("type", py.Str "string");
                    ("description", py.Str "Parameter: tags") ]
          = py.Dict [ ("type", py.Str kind);
                      ("description", py.Str ("Parameter: " ++ "tags")) ].
Proof.
  exact (proj2 derived_entries_are_well_formed examples.store "tags" _ eq_refl).
Defined.

(** Every name in the loop's [required] list is a key of [properties]: the
    schema never requires a parameter it does not describe.  When the
    signature names each parameter once, [required] has no repetition. *)
Theorem required_names_are_described (func : inspect.Callable) (n : string) :
  In n (snd (tool.from_function_loop func)) ->
  (exists entry, py.get n (fst (tool.from_function_loop func)) = Some entry)
  /\ (NoDup (map inspect.name (inspect.signature func)) ->
      NoDup (snd (tool.from_function_loop func))).
Proof.
  intros Hin. split.
  - rewrite from_function_required in Hin.
    apply required_names_in in Hin as (q & Hq & <- & Hne & _).
    rewrite from_function_property, declared_existsb by assumption. eauto.
  - intros ND. rewrite from_function_required. unfold spec.required_names.
    apply declared_names_distinct in ND. revert ND.
    generalize (spec.declared (inspect.signature func)) as ps. clear.
    induction ps as [|q ps IH]; cbn [filter map]; intros ND; [constructor|].
    apply NoDup_cons_iff in ND as [Hfresh ND].
    destruct (spec.lacks_default q); cbn [map]; [|now apply IH].
    apply NoDup_cons_iff. split; [|now apply IH].
    intros Hin. apply Hfresh. apply in_map_iff in Hin as (x & Hx & Hin).
    apply filter_In in Hin as [Hin _]. apply in_map_iff. eauto.
Qed.

Lemma required_names_are_described_scale :
  exists entry, py.get "a" (fst (tool.from_function_loop examples.scale)) = Some entry.
Proof.
  refine (proj1 (required_names_are_described examples.scale "a" _)).
  cbn. now left.
Defined.

(** ** Trimming *)

Section Strip.
Variable p : ascii -> bool.

Lemma lstrip_first s :
  match more.first_char (py.lstrip_with p s) with
  | Some c => p c = false
  | None => True
  end.
Proof.
  induction s as [|c s IH]; cbn [py.lstrip_with]; [exact I|].
  destruct (p c) eqn:E; [exact IH | exact E].
Qed.

Lemma rstrip_last s :
  match more.last_char (py.rstrip_with p s) with
  | Some c => p c = false
  | None => True
  end.
Proof.
  induction s as [|c s IH]; cbn [py.rstrip_with]; [exact I|].
  destruct (py.rstrip_with p s) as [|c' kept].
  - destruct (p c) eqn:E; [exact I | exact E].
  - exact IH.
Qed.

Lemma rstrip_first c s :
  p c = false -> more.first_char (py.rstrip_with p (String c s)) = Some c.
Proof.
  intros E. cbn [py.rstrip_with].
  destruct (py.rstrip_with p s); [rewrite E|]; reflexivity.
Qed.

End Strip.

Lemma lstrip_empty_iff s :
  py.lstrip_with py.isspace s = EmptyString <-> more.all_space s = true.
Proof.
  induction s as [|c s IH]; cbn [py.lstrip_with more.all_space]; [tauto|].
  destruct (py.isspace c); cbn [andb]; [exact IH|].
  split; discriminate.
Qed.

Lemma strip_first s : more.is_space_char (more.first_char (py.strip s)) = false.
Proof.
  unfold py.strip. pose proof (lstrip_first py.isspace s) as H.
  destruct (py.lstrip_with py.isspace s) as [|c t]; [reflexivity|].
  cbn [more.first_char] in H. rewrite rstrip_first by assumption. exact H.
Qed.

Lemma strip_last s : more.is_space_char (more.last_char (py.strip s)) = false.
Proof.
  unfold py.strip.
  pose proof (rstrip_last py.isspace (py.lstrip_with py.isspace s)) as H.
  destruct (more.last_char _); [exact H | reflexivity].
Qed.

Lemma strip_empty_iff s : py.strip s = EmptyString <-> more.all_space s = true.
Proof.
  rewrite <- lstrip_empty_iff. unfold py.strip.
  pose proof (lstrip_first py.isspace s) as H.
  destruct (py.lstrip_with py.isspace s) as [|c t]; [tauto|].
  cbn [more.first_char] in H. split; [|discriminate].
  intros E. pose proof (@rstrip_first py.isspace c t H) as F.
  rewrite E in F. discriminate.
Qed.

(** The description of a derived tool never begins or ends with white
    space.  It is empty exactly when the docstring is not empty but all
    white space: the fallback [Execute <name>] replaces a missing or empty
    docstring only, and is chosen before trimming. *)
Theorem description_is_trimmed (func : inspect.Callable) :
  more.is_space_char
    (more.first_char (tool.description (tool.from_function func))) = false
  /\ more.is_space_char
       (more.last_char (tool.description (tool.from_function func))) = false
  /\ (tool.description (tool.from_function func) = EmptyString
      <-> exists c rest,
            inspect.__doc__ func = Some (String c rest)
            /\ more.all_space (String c rest) = true).
Proof.
  cbn [tool.from_function tool.description].
  split; [apply strip_first | split; [apply strip_last|]].
  rewrite strip_empty_iff.
  destruct (inspect.__doc__ func) as [[|c rest]|]; cbn [py.or_str py.str_truthy].
  - split; [discriminate | intros (c & rest & H & _); discriminate].
  - split; [eauto | intros (c' & rest' & H & E); now injection H as -> ->].
  - split; [discriminate | intros (c & rest & H & _); discriminate].
Qed.

(** ** Agent: tool list, request payload, memory *)

Lemma post_init_from (entries : list agent.tool_entry) : forall processed,
  fold_left
    (fun processed_tools t =>
       match t with
       | agent.RawFunction f => (processed_tools ++ [tool.from_function f])%list
       | agent.BoundTool t => (processed_tools ++ [t])%list
       end)
    entries processed
  = (processed ++ map more.as_tool entries)%list.
Proof.
  induction entries as [|e entries IH]; intros processed; cbn [fold_left map].
  - now rewrite app_nil_r.
  - rewrite IH. destruct e; cbn [more.as_tool]; now rewrite <- app_assoc.
Qed.

Lemma post_init_map (entries : list agent.tool_entry) :
  agent.__post_init__ entries = map more.as_tool entries.
Proof. unfold agent.__post_init__. now rewrite post_init_from. Qed.

(** [__post_init__] turns the [tools] argument into a list of [Tool]s of
    the same length and order: a [Tool] passes through unchanged, a raw
    callable is replaced by [Tool.from_function] of it.  Wrapping the raw
    callables by hand beforehand changes nothing. *)
Theorem post_init_normalizes_in_order (entries : list agent.tool_entry) :
  agent.__post_init__ entries = map more.as_tool entries
  /\ length (agent.__post_init__ entries) = length entries
  /\ agent.__post_init__ (map more.wrapped entries) = agent.__post_init__ entries
  /\ forall tools : list tool.Tool,
       agent.__post_init__ (map agent.BoundTool tools) = tools.
Proof.
  pose proof post_init_map as E.
  repeat split.
  - apply E.
  - now rewrite E, length_map.
  - rewrite !E, map_map. reflexivity.
  - intros tools. rewrite E, map_map. cbn [more.as_tool]. apply map_id.
Qed.

(** Agents built from raw callables and from the same callables wrapped by
    hand are the same agent, so every request they build is the same,
    [tools] array included. *)
Theorem raw_and_wrapped_tools_agree
    (name model : string) (system_prompt : option string)
    (entries : list agent.tool_entry) (memory_enabled : bool) (max_tokens : Z)
    (temperature : float) (history : option (list py.value))
    (_client : option py.value) (message : string)
    (context : option (py.dict py.value)) :
  let raw :=
    agent.Agent__init__ name model system_prompt entries memory_enabled
      max_tokens temperature history _client in
  let by_hand :=
    agent.Agent__init__ name model system_prompt (map more.wrapped entries)
      memory_enabled max_tokens temperature history _client in
  raw = by_hand
  /\ agent.request (agent.run_body raw message context)
     = agent.request (agent.run_body by_hand message context)
  /\ py.get "tools" (agent.request (agent.run_body raw message context))
     = match entries with
       | [] => None
       | _ :: _ => Some (py.List (map (fun e => tool.to_dict (more.as_tool e)) entries))
       end.
Proof.
  intros raw by_hand.
  assert (E : raw = by_hand).
  { unfold raw, by_hand, agent.Agent__init__.
    now rewrite !post_init_map, map_map. }
  split; [exact E | split; [now rewrite E|]].
  unfold raw, agent.run_body.
  cbn [agent.request agent.Agent__init__ agent.history_append agent.tools
       agent.system_prompt agent.memory_enabled agent.model agent.max_tokens
       agent.temperature agent._conversation_history].
  rewrite post_init_map.
  destruct entries as [|e entries].
  - cbn [map]. destruct (py.opt_str_truthy system_prompt); reflexivity.
  - cbn [map]. rewrite get_set_same. now rewrite map_map.
Qed.

Lemma set_new_key (k : string) (v : py.value) (d : py.dict py.value) :
  ~ In k (py.keys d) -> py.set k v d = (d ++ [(k, v)])%list.
Proof. intros H. apply set_fresh. now apply get_none_not_key. Qed.

(** The request [run] builds has the keys [model], [messages],
    [max_tokens], [temperature], then [system] if and only if the system
    prompt is a non-empty string, then [tools] if and only if the agent has
    at least one tool; an empty system prompt is left out like a missing
    one. *)
Theorem run_request_shape (self : agent.Agent) (message : string)
    (context : option (py.dict py.value)) :
  agent.request (agent.run_body self message context)
  = ([ ("model", py.Str (agent.model self));
       ("messages",
         if agent.memory_enabled self
         then py.List (agent._conversation_history self
                       ++ [ agent.message_entry "user" message ])
         else py.List [ agent.message_entry "user" message ]);
       ("max_tokens", py.Int (agent.max_tokens self));
       ("temperature", py.Float (agent.temperature self)) ]
     ++ match agent.system_prompt self with
        | Some (String c rest) => [ ("system", py.Str (String c rest)) ]
        | Some EmptyString | None => []
        end
     ++ match agent.tools self with
        | [] => []
        | _ :: _ => [ ("tools", py.List (map tool.to_dict (agent.tools self))) ]
        end)%list.
Proof.
  unfold agent.run_body.
  cbn [agent.request agent.history_append agent.tools agent.system_prompt
       agent.memory_enabled agent.model agent.max_tokens agent.temperature
       agent._conversation_history].
  destruct (agent.system_prompt self) as [[|c rest]|];
    cbn [py.opt_str_truthy py.str_truthy];
    destruct (agent.tools self) as [|t ts];
    destruct (agent.memory_enabled self); reflexivity.
Qed.

Lemma same_settings_trans (a b c : agent.Agent) :
  more.same_settings a b -> more.same_settings b c -> more.same_settings a c.
Proof. unfold more.same_settings. intuition congruence. Qed.

Lemma run_same_settings (a : agent.Agent) (message : string)
    (context : option (py.dict py.value)) :
  more.same_settings a (snd (agent.run a message context)).
Proof.
  unfold more.same_settings, agent.run, agent.run_body.
  cbn [snd agent.self_after agent.history_append agent.memory_enabled].
  destruct (agent.memory_enabled a) eqn:E; cbn; rewrite ?E; tauto.
Qed.

Lemma run_all_same_settings (calls : list (string * option (py.dict py.value))) :
  forall a, more.same_settings a (agent.run_all a calls).
Proof.
  induction calls as [|[m c] calls IH]; intros a; cbn [agent.run_all].
  - unfold more.same_settings. tauto.
  - eapply same_settings_trans; [apply run_same_settings | apply IH].
Qed.

(** [run] and [clear_memory] change nothing but the history: name, model,
    system prompt, tools, memory flag, token limit, temperature and client
    are as before after any sequence of calls. *)
Theorem run_keeps_settings (self : agent.Agent)
    (calls : list (string * option (py.dict py.value))) :
  more.same_settings self (agent.run_all self calls)
  /\ more.same_settings self (agent.clear_memory self)
  /\ more.same_settings self (agent.run_all (agent.clear_memory self) calls).
Proof.
  assert (C : more.same_settings self (agent.clear_memory self)).
  { unfold more.same_settings. cbn. tauto. }
  split; [apply run_all_same_settings | split; [exact C|]].
  eapply same_settings_trans; [exact C | apply run_all_same_settings].
Qed.

(** Whatever the agent's state, a sequence of calls to [run] only appends
    to the history: the earlier entries stay in place, each call adds two
    entries with memory enabled and one without. *)
Theorem history_only_grows (self : agent.Agent)
    (calls : list (string * option (py.dict py.value))) :
  agent._conversation_history (agent.run_all self calls)
  = (agent._conversation_history self
     ++ flat_map (fun call => more.added_by self (fst call)) calls)%list
  /\ length (agent._conversation_history (agent.run_all self calls))
     = length (agent._conversation_history self)
       + (if agent.memory_enabled self then 2 else 1) * length calls
  /\ firstn (length (agent._conversation_history self))
       (agent._conversation_history (agent.run_all self calls))
     = agent._conversation_history self.
Proof.
  assert (E : agent._conversation_history (agent.run_all self calls)
              = (agent._conversation_history self
                 ++ flat_map (fun call => more.added_by self (fst call)) calls)%list).
  { rewrite run_all_history. reflexivity. }
  rewrite E. split; [reflexivity | split].
  - rewrite length_app. f_equal. unfold more.added_by. clear E.
    induction calls as [|call calls IH]; cbn [flat_map length]; [lia|].
    rewrite length_app, IH.
    destruct (agent.memory_enabled self); cbn [spec.exchange length]; lia.
  - rewrite firstn_app, Nat.sub_diag, firstn_all. cbn [firstn]. apply app_nil_r.
Qed.

(** With memory enabled, the request of a call lists the whole history
    and then the current message: after [N] remembered calls the next
    request carries the [N] exchanges in order, followed by the new user
    message. *)
Theorem remembered_request_carries_history (self : agent.Agent)
    (calls : list (string * option (py.dict py.value)))
    (message : string) (context : option (py.dict py.value)) :
  agent.memory_enabled self = true ->
  py.get "messages"
    (agent.request (agent.run_body (agent.run_all self calls) message context))
  = Some (py.List
            (agent._conversation_history self
             ++ flat_map (fun call => spec.exchange (agent.name self) (fst call)) calls
             ++ [ agent.message_entry "user" message ])%list).
Proof.
  intros Hmem. rewrite run_request_messages, run_all_memory_enabled, Hmem.
  rewrite run_all_history, Hmem. now rewrite <- app_assoc.
Qed.

Lemma remembered_request_carries_history_helper :
  py.get "messages"
    (agent.request
       (agent.run_body
          (agent.run_all examples.helper_with_memory [ ("first", None) ])
          "second" None))
  = Some (py.List
            [ agent.message_entry "user" "first";
              agent.message_entry "assistant" "[Agent 'helper' would process: first]";
              agent.message_entry "user" "second" ]).
Proof.
  exact (remembered_request_carries_history examples.helper_with_memory
           [ ("first", None) ] "second" None eq_refl).
Defined.

(** The answer of [run] depends on the agent's settings and the message
    only, not on the history or the context; and with memory disabled so
    does the request: an agent without memory sends the same payload
    whatever it was asked before. *)
Theorem stateless_request_ignores_history (a b : agent.Agent) (message : string)
    (context context' : option (py.dict py.value)) :
  more.same_settings a b ->
  fst (agent.run a message context) = fst (agent.run b message context')
  /\ (agent.memory_enabled a = false ->
      agent.request (agent.run_body a message context)
      = agent.request (agent.run_body b message context')).
Proof.
  intros (Hname & Hmodel & Hprompt & Htools & Hmem & Hmax & Htemp & _).
  split.
  - unfold agent.run, agent.run_body.
    cbn [fst agent.response agent.history_append agent.name agent.model].
    now rewrite Hname, Hmodel.
  - intros Hoff. assert (Hoff' : agent.memory_enabled b = false) by congruence.
    unfold agent.run_body.
    cbn [agent.request agent.history_append agent.tools agent.system_prompt
         agent.memory_enabled agent.model agent.max_tokens agent.temperature
         agent._conversation_history].
    now rewrite Hoff, Hoff', Hmodel, Hprompt, Htools, Hmax, Htemp.
Qed.

Lemma stateless_request_ignores_history_helper :
  agent.request (agent.run_body examples.helper "now" None)
  = agent.request
      (agent.run_body (agent.run_all examples.helper [ ("before", None) ]) "now" None).
Proof.
  refine (proj2 (@stateless_request_ignores_history examples.helper
                   (agent.run_all examples.helper [ ("before", None) ])
                   "now" None None _) eq_refl).
  unfold more.same_settings. cbn. tauto.
Defined.

(** [clear_memory] empties the history and is idempotent; the calls that
    follow it leave exactly their own entries, as on an agent that was
    never used. *)
Theorem clear_memory_starts_over (self : agent.Agent)
    (calls : list (string * option (py.dict py.value))) :
  agent._conversation_history (agent.clear_memory self) = []
  /\ agent.clear_memory (agent.clear_memory self) = agent.clear_memory self
  /\ agent._conversation_history (agent.run_all (agent.clear_memory self) calls)
     = flat_map (fun call => more.added_by self (fst call)) calls
  /\ agent.clear_memory
       (agent.run_all (agent.clear_memory self) calls) = agent.clear_memory self.
Proof.
  split; [reflexivity | split; [reflexivity | split]].
  - rewrite run_all_history. reflexivity.
  - pose proof (run_all_same_settings calls (agent.clear_memory self)) as H.
    destruct H as (H1 & H2 & H3 & H4 & H5 & H6 & H7 & H8).
    unfold agent.clear_memory at 1. rewrite <- H1, <- H2, <- H3, <- H4, <- H5, <- H6, <- H7, <- H8.
    reflexivity.
Qed.

(** ** Client: construction *)

Lemma slash_is_stripped :
  (fun c => existsb (Ascii.eqb c) (list_ascii_of_string "/")) "/"%char = true.
Proof. reflexivity. Qed.



(** The base URL of a constructed client never ends with a slash: trailing
    slashes of the given URL are removed, and a missing or empty URL stands
    for the default [https://api.gagiteck.com/v1]. *)
Theorem init_trims_base_url
    (world world' : list client.effect) (api_key base_url : option string)
    (timeout : Z) (debug : bool) (c : client.Client) :
  client.__init__ world api_key base_url timeout debug
  = (exceptions.Return c, world') ->
  more.last_char (client.base_url c) <> Some "/"%char
  /\ client.base_url c
     = match base_url with
       | Some (String a rest) => py.rstrip "/" (String a rest)
       | Some EmptyString | None => client.DEFAULT_BASE_URL
       end.
Proof.
  unfold client.__init__.
  destruct (negb (py.opt_str_truthy api_key)); [discriminate|].
  destruct (negb (py.startswith "ggt_" _)); [discriminate|].
  intros H. injection H as <- _. cbn [client.base_url]. split.
  - unfold py.rstrip.
    pose proof (rstrip_last
                  (fun c => existsb (Ascii.eqb c) (list_ascii_of_string "/"))
                  (py.or_str base_url client.DEFAULT_BASE_URL)) as L.
    intros E. rewrite E in L. rewrite slash_is_stripped in L. discriminate.
  - destruct base_url as [[|a rest]|]; reflexivity.
Qed.

Lemma init_trims_base_url_custom :
  more.last_char "https://custom.api.com/v1" <> Some "/"%char
  /\ "https://custom.api.com/v1" = py.rstrip "/" "https://custom.api.com/v1//".
Proof.
  exact (@init_trims_base_url [] _ (Some "ggt_test_key")
           (Some "https://custom.api.com/v1//") 30 false _ eq_refl).
Defined.

(** ** Client: requests *)

Lemma request_log (method path : string) (json : option py.value)
    (params : option (py.dict py.value))
    (send : httpx.transport) (log : list httpx.Request) :
  snd (http._request method path json params send log)
  = (log ++ [ {| httpx.method := method; httpx.url := path;
                 httpx.json := json; httpx.params := params |} ])%list.
Proof.
  unfold http._request.
  destruct (send _) as [r|m|e]; [|reflexivity|reflexivity].
  destruct (httpx.is_error r).
  - destruct (httpx.status_code r =? 401)%Z; reflexivity.
  - destruct (httpx.json_body r); reflexivity.
Qed.

(** [_request] sends exactly one request, the one it was asked for, and
    never a second: whatever the transport answers (a body, an error
    status, a connection failure), the requests sent grow by that one. *)
Theorem request_sends_exactly_once
    (method path : string) (json : option py.value)
    (params : option (py.dict py.value))
    (send : httpx.transport) (log : list httpx.Request) :
  snd (http._request method path json params send log)
  = (log ++ [ {| httpx.method := method; httpx.url := path;
                 httpx.json := json; httpx.params := params |} ])%list.
Proof. apply request_log. Qed.

(** How [_request] reports a failed exchange: an error response with
    status 401 becomes [AuthenticationError]; any other error status
    becomes an [APIError] with that status as code and the message
    [API Error <status>: <response text>]; a failure to reach the server
    becomes an [APIError] with code 0. *)
Theorem request_maps_failures
    (method path : string) (json : option py.value)
    (params : option (py.dict py.value))
    (send : httpx.transport) (log : list httpx.Request) :
  let request :=
    {| httpx.method := method; httpx.url := path;
       httpx.json := json; httpx.params := params |} in
  (forall r,
     send request = httpx.Responded r -> httpx.is_error r = true ->
     fst (http._request method path json params send log)
     = if (httpx.status_code r =? 401)%Z
       then http.Fail
              (http.Core (exceptions.AuthenticationError "Invalid or expired API key"))
       else http.Fail
              (http.APIError (httpx.status_code r)
                 ("API Error " ++ http.str_of_int (httpx.status_code r) ++ ": "
                  ++ httpx.text r)))
  /\ (forall message,
        send request = httpx.RequestError message ->
        fst (http._request method path json params send log)
        = http.Fail (http.APIError 0 ("API Error 0: " ++ message))).
Proof.
  intros request. unfold http._request. fold request. split.
  - intros r -> ->. destruct (httpx.status_code r =? 401)%Z; reflexivity.
  - intros message ->. reflexivity.
Qed.

Lemma request_maps_failures_examples :
  fst (http._request "GET" "/agents" None None
         (more.always (httpx.Responded (more.error_response 404 "Not Found"))) [])
  = http.Fail (http.APIError 404 "API Error 404: Not Found")
  /\ fst (http._request "GET" "/agents" None None
            (more.always (httpx.Responded (more.error_response 401 "Unauthorized"))) [])
     = http.Fail
         (http.Core (exceptions.AuthenticationError "Invalid or expired API key"))
  /\ fst (http._request "GET" "/agents" None None
            (more.always (httpx.RequestError "Connection refused")) [])
     = http.Fail (http.APIError 0 "API Error 0: Connection refused").
Proof.
  split; [|split].
  - exact (proj1 (request_maps_failures "GET" "/agents" None None
                    (more.always (httpx.Responded (more.error_response 404 "Not Found")))
                    []) _ eq_refl eq_refl).
  - exact (proj1 (request_maps_failures "GET" "/agents" None None
                    (more.always (httpx.Responded (more.error_response 401 "Unauthorized")))
                    []) _ eq_refl eq_refl).
  - exact (proj2 (request_maps_failures "GET" "/agents" None None
                    (more.always (httpx.RequestError "Connection refused")) [])
             _ eq_refl).
Defined.

(** [_request] returns a value only for a genuine success: the transport
    answered, the response was not an error, and the value is what the
    response's JSON body parsed to.  A response whose body does not parse
    raises the parser's exception; it is not turned into an [APIError]. *)
Theorem request_success_is_genuine
    (method path : string) (json : option py.value)
    (params : option (py.dict py.value))
    (send : httpx.transport) (log : list httpx.Request) (body : py.value) :
  fst (http._request method path json params send log) = http.Ok body ->
  exists r,
    send {| httpx.method := method; httpx.url := path;
            httpx.json := json; httpx.params := params |}
    = httpx.Responded r
    /\ httpx.is_error r = false
    /\ httpx.json_body r = exceptions.Return body.
Proof.
  unfold http._request.
  destruct (send _) as [r|m|e]; [|discriminate|discriminate].
  destruct (httpx.is_error r) eqn:E.
  - destruct (httpx.status_code r =? 401)%Z; discriminate.
  - destruct (httpx.json_body r) as [b|e] eqn:J; [|discriminate].
    cbn [fst]. intros H. injection H as ->. eauto.
Qed.

Lemma request_success_is_genuine_example :
  exists r,
    more.always (httpx.Responded (more.ok_response (py.Dict [ ("id", py.Str "a1") ])))
      {| httpx.method := "GET"; httpx.url := "/agents/a1";
         httpx.json := None; httpx.params := None |}
    = httpx.Responded r
    /\ httpx.is_error r = false
    /\ httpx.json_body r = exceptions.Return (py.Dict [ ("id", py.Str "a1") ]).
Proof.
  exact (@request_success_is_genuine "GET" "/agents/a1" None None
           (more.always (httpx.Responded (more.ok_response (py.Dict [ ("id", py.Str "a1") ]))))
           [] _ eq_refl).
Defined.

(** ** Client: the resource wrappers *)

Lemma delete_log (agent_id : string) (send : httpx.transport)
    (log : list httpx.Request) :
  snd (AgentsAPI.delete agent_id send log)
  = snd (http._request "DELETE" ("/agents/" ++ agent_id) None None send log).
Proof.
  unfold AgentsAPI.delete.
  destruct (http._request _ _ _ _ send log) as [[body|e] log']; reflexivity.
Qed.

(** Every wrapper of the three resource classes sends exactly one request.
    Listing and fetching use [GET] without a body, listing passes [limit]
    and [offset] as query parameters, and an identifier is spliced into
    the path as it is. *)
Theorem wrappers_send_one_request (send : httpx.transport)
    (log : list httpx.Request) (id : string) (limit offset : Z) :
  let paging := Some [ ("limit", py.Int limit); ("offset", py.Int offset) ] in
  let sent (A : Type) (m : http.io A) method url json params :=
    snd (m send log)
    = (log ++ [ {| httpx.method := method; httpx.url := url;
                   httpx.json := json; httpx.params := params |} ])%list in
  sent _ (AgentsAPI.list limit offset) "GET" "/agents" None paging
  /\ sent _ (WorkflowsAPI.list limit offset) "GET" "/workflows" None paging
  /\ sent _ (ExecutionsAPI.list limit offset) "GET" "/executions" None paging
  /\ sent _ (AgentsAPI.get id) "GET" ("/agents/" ++ id) None None
  /\ sent _ (WorkflowsAPI.get id) "GET" ("/workflows/" ++ id) None None
  /\ sent _ (ExecutionsAPI.get id) "GET" ("/executions/" ++ id) None None
  /\ sent _ (AgentsAPI.delete id) "DELETE" ("/agents/" ++ id) None None
  /\ (forall kwargs,
        sent _ (AgentsAPI.update id kwargs) "PATCH" ("/agents/" ++ id)
          (Some (py.Dict kwargs)) None)
  /\ (forall name model system_prompt tools kwargs,
        exists data,
          sent _ (AgentsAPI.create name model system_prompt tools kwargs)
            "POST" "/agents" (Some (py.Dict data)) None)
  /\ (forall message context,
        exists data,
          sent _ (AgentsAPI.run id message context)
            "POST" ("/agents/" ++ id ++ "/run") (Some (py.Dict data)) None)
  /\ (forall inputs,
        exists data,
          sent _ (WorkflowsAPI.trigger id inputs)
            "POST" ("/workflows/" ++ id ++ "/trigger") (Some (py.Dict data)) None).
Proof.
  intros paging sent. unfold sent.
  repeat match goal with |- _ /\ _ => split end;
    try (intros; eexists); try (rewrite delete_log); intros; apply request_log.
Qed.

(** [agents.run] always sends the message, and sends the context only when
    it is a non-empty dictionary: a missing context and an empty one give
    the same request body [{message}]. *)
Theorem agents_run_sends_context_if_nonempty
    (agent_id message : string) (send : httpx.transport) (log : list httpx.Request) :
  AgentsAPI.run agent_id message None send log
  = http._request "POST" ("/agents/" ++ agent_id ++ "/run")
      (Some (py.Dict [ ("message", py.Str message) ])) None send log
  /\ AgentsAPI.run agent_id message (Some []) send log
     = AgentsAPI.run agent_id message None send log
  /\ forall entry context,
       AgentsAPI.run agent_id message (Some (entry :: context)) send log
       = http._request "POST" ("/agents/" ++ agent_id ++ "/run")
           (Some (py.Dict [ ("message", py.Str message);
                            ("context", py.Dict (entry :: context)) ]))
           None send log.
Proof. repeat split. Qed.

Lemma dict_update_fresh (kwargs : py.dict py.value) : forall base,
  NoDup (py.keys base ++ py.keys kwargs) ->
  http.dict_update base kwargs = (base ++ kwargs)%list.
Proof.
  unfold http.dict_update.
  induction kwargs as [|[k v] kwargs IH]; intros base ND; cbn [fold_left fst snd].
  - now rewrite app_nil_r.
  - cbn [py.keys map fst] in ND.
    rewrite set_new_key.
    + rewrite IH.
      * now rewrite <- app_assoc.
      * unfold py.keys in *. rewrite map_app. cbn [map fst].
        now apply nodup_middle.
    + intros Hin. apply NoDup_remove_2 in ND. apply ND.
      apply in_or_app. now left.
Qed.

(** The body [agents.create] sends starts with [name], [model],
    [system_prompt] and [tools], in that order, followed by the extra
    keyword arguments in the order given (keyword names are distinct and
    differ from the four fixed ones).  A missing [tools] argument is sent
    as an empty list, a missing system prompt as [None]. *)
Theorem agents_create_body
    (name model : string) (system_prompt : option string)
    (tools : option (list py.value)) (kwargs : py.dict py.value)
    (send : httpx.transport) (log : list httpx.Request) :
  NoDup ([ "name"; "model"; "system_prompt"; "tools" ] ++ py.keys kwargs) ->
  AgentsAPI.create name model system_prompt tools kwargs send log
  = http._request "POST" "/agents"
      (Some (py.Dict
               ([ ("name", py.Str name);
                  ("model", py.Str model);
                  ("system_prompt",
                    match system_prompt with
                    | Some s => py.Str s
                    | None => py.None_
                    end);
                  ("tools",
                    py.List (match tools with Some l => l | None => [] end)) ]
                ++ kwargs)))
      None send log.
Proof.
  intros ND. unfold AgentsAPI.create.
  rewrite dict_update_fresh by exact ND.
  destruct tools as [[|t ts]|]; reflexivity.
Qed.

Lemma agents_create_body_example :
  AgentsAPI.create "helper" "claude-3-sonnet" None None
    [ ("temperature", py.Int 1) ] (more.always (httpx.RequestError "down")) []
  = http._request "POST" "/agents"
      (Some (py.Dict
               [ ("name", py.Str "helper");
                 ("model", py.Str "claude-3-sonnet");
                 ("system_prompt", py.None_);
                 ("tools", py.List []);
                 ("temperature", py.Int 1) ]))
      None (more.always (httpx.RequestError "down")) [].
Proof.
  refine (@agents_create_body "helper" "claude-3-sonnet" None None
            [ ("temperature", py.Int 1) ] _ [] _).
  cbn. repeat constructor; cbn; intuition discriminate.
Defined.

(** [agents.delete] succeeds exactly when the [DELETE] request does, and
    then returns nothing, whatever body the server sent; a failure of the
    request is raised unchanged. *)
Theorem agents_delete_result
    (agent_id : string) (send : httpx.transport) (log : list httpx.Request) :
  (fst (AgentsAPI.delete agent_id send log) = http.Ok tt
   <-> exists body,
         fst (http._request "DELETE" ("/agents/" ++ agent_id) None None send log)
         = http.Ok body)
  /\ forall e,
       fst (AgentsAPI.delete agent_id send log) = http.Fail e
       <-> fst (http._request "DELETE" ("/agents/" ++ agent_id) None None send log)
           = http.Fail e.
Proof.
  unfold AgentsAPI.delete.
  destruct (http._request _ _ _ _ send log) as [[body|e0] log']; cbn [fst]; split.
  - split; eauto.
  - intros e. split; discriminate.
  - split; [discriminate | intros (b & H); discriminate].
  - intros e. split; intros H; injection H as ->; reflexivity.
Qed.

(** [workflows.trigger] sends [{inputs: {}}] when no inputs are given, the
    same as for an empty dictionary; given inputs are sent as they are. *)
Theorem workflows_trigger_inputs
    (workflow_id : string) (send : httpx.transport) (log : list httpx.Request) :
  WorkflowsAPI.trigger workflow_id None send log
  = WorkflowsAPI.trigger workflow_id (Some []) send log
  /\ forall inputs,
       WorkflowsAPI.trigger workflow_id (Some inputs) send log
       = http._request "POST" ("/workflows/" ++ workflow_id ++ "/trigger")
           (Some (py.Dict [ ("inputs", py.Dict inputs) ])) None send log.
Proof.
  split; [reflexivity|]. intros [|i inputs]; reflexivity.
Qed.
